(** * testflow-vista: the API test panel

    A shallow embedding of [src/components/ApiTestPanel.tsx] (the request
    builder, the request executor, the panel's form state, the cURL
    command and the conditions of the markup), of the endpoint selection
    of [src/pages/Index.tsx] and of the sidebar of
    [src/components/ApiSidebar.tsx].

    Conventions of the embedding.

    - A TypeScript [string] is the sequence of its UTF-16 code units,
      [list N]; [Js.str] turns an ASCII literal into such a sequence.
    - A [Record<string, string>] is a finite map [gmap (list N) (list N)];
      [m !! k = None] is the JavaScript [undefined] of [m[k]].  The maps
      are read at their TypeScript type: own string-valued properties only.
    - The React state of the panel is a record; a state setter called by a
      handler is an [Effect] of the handler's trace, and [run] applies the
      setters of a trace to a state in the order they were called.  The
      values a handler reads ([apiKey], [formData], ...) are those of the
      render that created the handler, which is its argument [st].
    - The network is an oracle [Network] giving the result of [fetch] for a
      URL and its options: a rejection, or a response whose [text()]
      resolves or rejects. *)

From Stdlib Require Import NArith List Ascii String Decimal.
From stdpp Require Import base option list countable numbers gmap.
Import ListNotations.

#[local] Set Warnings "-register-all".
Local Open Scope N_scope.
Local Open Scope list_scope.

(** ** JavaScript strings and the String.prototype methods the panel calls *)

Module Js.

(** Code units of an ASCII literal. *)
Definition str (s : string) : list N :=
  map N_of_ascii (list_ascii_of_string s).

(** The same, with every apostrophe of the literal standing for a
    quotation mark (code unit 34): JSON texts are written with it. *)
Definition dq (s : string) : list N :=
  map (fun c => if c =? 39 then 34 else c) (str s).

Global Arguments str : simpl never.
Global Arguments dq : simpl never.

Definition code_eqb (a b : N) : bool := N.eqb a b.

Fixpoint eqb (s t : list N) : bool :=
  match s, t with
  | [], [] => true
  | a :: s', b :: t' => code_eqb a b && eqb s' t'
  | _, _ => false
  end.

(** ToBoolean on a string: only the empty string is falsy. *)
Definition truthy (s : list N) : bool :=
  match s with [] => false | _ :: _ => true end.

(** WhiteSpace and LineTerminator code points of ECMAScript (all of them
    are single code units): TAB, VT, FF, SP, NBSP, ZWNBSP, the category
    Zs, and LF, CR, LS, PS. *)
Definition isWhiteSpace (c : N) : bool :=
  (c =? 9) || (c =? 10) || (c =? 11) || (c =? 12) || (c =? 13)
  || (c =? 32) || (c =? 160) || (c =? 5760)
  || ((8192 <=? c) && (c <=? 8202))
  || (c =? 8232) || (c =? 8233) || (c =? 8239) || (c =? 8287)
  || (c =? 12288) || (c =? 65279).

Fixpoint trimStart (s : list N) : list N :=
  match s with
  | [] => []
  | c :: s' => if isWhiteSpace c then trimStart s' else s
  end.

Definition trimEnd (s : list N) : list N := rev (trimStart (rev s)).

(** [s.trim()] *)
Definition trim (s : list N) : list N := trimEnd (trimStart s).

Fixpoint startsWith (s prefix : list N) : bool :=
  match prefix, s with
  | [], _ => true
  | p :: prefix', c :: s' => code_eqb p c && startsWith s' prefix'
  | _ :: _, [] => false
  end.

(** The first occurrence of [search] in [s]: the text before it and the
    text after it (StringIndexOf from position 0). *)
Fixpoint splitAtFirst (search s : list N) : option (list N * list N) :=
  if startsWith s search then Some ([], drop (length search) s)
  else match s with
       | [] => None
       | c :: s' =>
           match splitAtFirst search s' with
           | Some (before, after) => Some (c :: before, after)
           | None => None
           end
       end.

(** [s.includes(search)] *)
Definition includes (s search : list N) : bool :=
  match splitAtFirst search s with Some _ => true | None => false end.

(** GetSubstitution for a string pattern (no captures, no named groups):
    in the replacement text, [$$] is a dollar sign, [$&] the matched
    text, [$`] the text before the match, [$'] the text after it; a
    dollar sign before anything else (a digit, [<], ...) stands for
    itself. *)
Fixpoint getSubstitution (matched before after template : list N) : list N :=
  match template with
  | [] => []
  | c :: rest =>
      if c =? 36 then
        match rest with
        | d :: rest' =>
            if d =? 36 then 36 :: getSubstitution matched before after rest'
            else if d =? 38 then matched ++ getSubstitution matched before after rest'
            else if d =? 96 then before ++ getSubstitution matched before after rest'
            else if d =? 39 then after ++ getSubstitution matched before after rest'
            else 36 :: getSubstitution matched before after rest
        | [] => [36]
        end
      else c :: getSubstitution matched before after rest
  end.

(** [s.replace(searchValue, replaceValue)] with two strings: only the
    first occurrence is replaced, and the replacement text goes through
    [getSubstitution]. *)
Definition replace (s searchValue replaceValue : list N) : list N :=
  match splitAtFirst searchValue s with
  | None => s
  | Some (before, after) =>
      before ++ getSubstitution searchValue before after replaceValue ++ after
  end.

(** [parts.join(sep)] *)
Fixpoint join (sep : list N) (parts : list (list N)) : list N :=
  match parts with
  | [] => []
  | [p] => p
  | p :: parts' => p ++ sep ++ join sep parts'
  end.

Fixpoint digits (u : Decimal.uint) : list N :=
  match u with
  | Nil => []
  | D0 u' => 48 :: digits u'
  | D1 u' => 49 :: digits u'
  | D2 u' => 50 :: digits u'
  | D3 u' => 51 :: digits u'
  | D4 u' => 52 :: digits u'
  | D5 u' => 53 :: digits u'
  | D6 u' => 54 :: digits u'
  | D7 u' => 55 :: digits u'
  | D8 u' => 56 :: digits u'
  | D9 u' => 57 :: digits u'
  end.

(** Number::toString of a non-negative integer, as a template literal
    prints [response.status]. *)
Definition numberToString (n : N) : list N := digits (N.to_uint n).

End Js.

(** ** JSON.parse and JSON.stringify(value, null, 2)

    The two built-ins the panel calls on a response body.  The text is
    cut into tokens by a machine that reads one code unit at a time, and
    the tokens drive a stack machine; both are structurally recursive on
    their input, so [parse] is total and [None] is the SyntaxError of
    JSON.parse.  A number keeps its lexeme: the double it denotes and the
    digits JSON.stringify prints for that double are floating point, and
    enter [stringify] as the function [numberImage] from lexemes to their
    printed form. *)

Module JSON.

Inductive value : Type :=
| Null
| Bool (b : bool)
| Number (lexeme : list N)
| String (s : list N)
| Array (items : list value)
| Object (props : list (list N * value)).

Inductive token : Type :=
| TLBrace | TRBrace | TLBracket | TRBracket | TColon | TComma
| TString (s : list N)
| TNumber (lexeme : list N)
| TTrue | TFalse | TNull.

Definition isDigit (c : N) : bool := (48 <=? c) && (c <=? 57).

(** JSON white space: TAB, LF, CR, SP. *)
Definition isSpace (c : N) : bool :=
  (c =? 9) || (c =? 10) || (c =? 13) || (c =? 32).

(** Code units a number lexeme is made of: digits, [+ - . e E]. *)
Definition isNumberChar (c : N) : bool :=
  isDigit c || (c =? 43) || (c =? 45) || (c =? 46) || (c =? 101) || (c =? 69).

(** Code units of the literals [true], [false], [null]. *)
Definition isWordChar (c : N) : bool := (97 <=? c) && (c <=? 122).

Definition hexValue (c : N) : option N :=
  if isDigit c then Some (c - 48)
  else if (97 <=? c) && (c <=? 102) then Some (c - 87)
  else if (65 <=? c) && (c <=? 70) then Some (c - 55)
  else None.

(** The single-character escapes of a JSON string. *)
Definition escapeChar (c : N) : option N :=
  if c =? 34 then Some 34          (* quotation mark *)
  else if c =? 92 then Some 92     (* reverse solidus *)
  else if c =? 47 then Some 47     (* solidus *)
  else if c =? 98 then Some 8      (* b: backspace *)
  else if c =? 102 then Some 12    (* f: form feed *)
  else if c =? 110 then Some 10    (* n: line feed *)
  else if c =? 114 then Some 13    (* r: carriage return *)
  else if c =? 116 then Some 9     (* t: tab *)
  else None.

Fixpoint dropDigits (l : list N) : list N :=
  match l with
  | c :: l' => if isDigit c then dropDigits l' else l
  | [] => []
  end.

Definition validExponent (l : list N) : bool :=
  match l with
  | [] => true
  | e :: l' =>
      if (e =? 101) || (e =? 69) then
        let l'' := match l' with
                   | s :: r => if (s =? 43) || (s =? 45) then r else l'
                   | [] => l'
                   end in
        match l'' with
        | d :: _ => isDigit d && negb (Js.truthy (dropDigits l''))
        | [] => false
        end
      else false
  end.

Definition validFraction (l : list N) : bool :=
  match l with
  | 46 :: l' =>
      match l' with
      | d :: _ => isDigit d && validExponent (dropDigits l')
      | [] => false
      end
  | _ => validExponent l
  end.

(** The JSON number grammar: an optional minus sign; the integer part,
    which is a single zero or starts with a digit from one to nine; an
    optional fraction, a dot and one digit or more; an optional exponent,
    the letter e in either case, an optional sign and one digit or more. *)
Definition validNumber (l : list N) : bool :=
  let l1 := match l with 45 :: r => r | _ => l end in
  match l1 with
  | 48 :: r => validFraction r
  | d :: r => isDigit d && validFraction (dropDigits r)
  | [] => false
  end.

Definition keyword (l : list N) : option token :=
  if Js.eqb l (Js.str "true") then Some TTrue
  else if Js.eqb l (Js.str "false") then Some TFalse
  else if Js.eqb l (Js.str "null") then Some TNull
  else None.

Inductive lexstate : Type :=
| LStart
| LString (acc : list N)
| LEscape (acc : list N)
| LUnicode (acc : list N) (seen : nat) (code : N)
| LNumber (acc : list N)
| LWord (acc : list N).

(** A code unit read between two tokens. *)
Definition startChar (c : N) : option (lexstate * list token) :=
  if isSpace c then Some (LStart, [])
  else if c =? 123 then Some (LStart, [TLBrace])
  else if c =? 125 then Some (LStart, [TRBrace])
  else if c =? 91 then Some (LStart, [TLBracket])
  else if c =? 93 then Some (LStart, [TRBracket])
  else if c =? 58 then Some (LStart, [TColon])
  else if c =? 44 then Some (LStart, [TComma])
  else if c =? 34 then Some (LString [], [])
  else if isNumberChar c then Some (LNumber [c], [])
  else if isWordChar c then Some (LWord [c], [])
  else None.

(** The token that ends where the machine stands, at a boundary or at
    the end of the text. *)
Definition closeToken (st : lexstate) : option (list token) :=
  match st with
  | LStart => Some []
  | LNumber acc => if validNumber acc then Some [TNumber acc] else None
  | LWord acc => match keyword acc with Some t => Some [t] | None => None end
  | LString _ | LEscape _ | LUnicode _ _ _ => None
  end.

Definition boundary (st : lexstate) (c : N) : option (lexstate * list token) :=
  match closeToken st, startChar c with
  | Some closed, Some (st', opened) => Some (st', closed ++ opened)
  | _, _ => None
  end.

Fixpoint lex (st : lexstate) (text : list N) : option (list token) :=
  match text with
  | [] => closeToken st
  | c :: text' =>
      match st with
      | LString acc =>
          if c =? 34 then
            match lex LStart text' with
            | Some toks => Some (TString acc :: toks)
            | None => None
            end
          else if c =? 92 then lex (LEscape acc) text'
          else if c <? 32 then None
          else lex (LString (acc ++ [c])) text'
      | LEscape acc =>
          match escapeChar c with
          | Some u => lex (LString (acc ++ [u])) text'
          | None => if c =? 117 then lex (LUnicode acc 0 0) text' else None
          end
      | LUnicode acc seen code =>
          match hexValue c with
          | Some h =>
              if Nat.eqb seen 3 then lex (LString (acc ++ [code * 16 + h])) text'
              else lex (LUnicode acc (S seen) (code * 16 + h)) text'
          | None => None
          end
      | LNumber acc =>
          if isNumberChar c then lex (LNumber (acc ++ [c])) text'
          else match boundary st c with
               | Some (st', toks) =>
                   match lex st' text' with
                   | Some rest => Some (toks ++ rest)
                   | None => None
                   end
               | None => None
               end
      | LWord acc =>
          if isWordChar c then lex (LWord (acc ++ [c])) text'
          else match boundary st c with
               | Some (st', toks) =>
                   match lex st' text' with
                   | Some rest => Some (toks ++ rest)
                   | None => None
                   end
               | None => None
               end
      | LStart =>
          match boundary st c with
          | Some (st', toks) =>
              match lex st' text' with
              | Some rest => Some (toks ++ rest)
              | None => None
              end
          | None => None
          end
      end
  end.

(** *** Objects

    The properties of a parsed object are kept in the order in which
    the object lists its own keys: array indices in ascending order,
    then the other keys in the order of their creation.  A key that
    occurs again in the text overwrites the value and keeps the place. *)

Definition indexValue (digits : list N) : N :=
  fold_left (fun acc d => acc * 10 + (d - 48)) digits 0.

(** An array index: the canonical decimal form of an integer below
    [2^32 - 1]. *)
Definition arrayIndex (key : list N) : option N :=
  match key with
  | [] => None
  | d :: rest =>
      if forallb isDigit key
         && ((negb (d =? 48)) || negb (Js.truthy rest))
         && (indexValue key <? 4294967295)
      then Some (indexValue key)
      else None
  end.

Fixpoint hasKey (key : list N) (props : list (list N * value)) : bool :=
  match props with
  | [] => false
  | (k, _) :: props' => Js.eqb k key || hasKey key props'
  end.

Fixpoint overwrite (key : list N) (v : value) (props : list (list N * value))
  : list (list N * value) :=
  match props with
  | [] => []
  | (k, w) :: props' =>
      if Js.eqb k key then (k, v) :: props'
      else (k, w) :: overwrite key v props'
  end.

(** Place of a new array index [i]: before the first key that is not an
    array index or is a larger one. *)
Fixpoint insertIndex (i : N) (key : list N) (v : value)
  (props : list (list N * value)) : list (list N * value) :=
  match props with
  | [] => [(key, v)]
  | (k, w) :: props' =>
      match arrayIndex k with
      | Some j =>
          if i <? j then (key, v) :: props
          else (k, w) :: insertIndex i key v props'
      | None => (key, v) :: props
      end
  end.

Definition define (props : list (list N * value)) (key : list N) (v : value)
  : list (list N * value) :=
  if hasKey key props then overwrite key v props
  else match arrayIndex key with
       | Some i => insertIndex i key v props
       | None => props ++ [(key, v)]
       end.

(** *** The parser: a stack machine over the tokens *)

Inductive frame : Type :=
| FArray (items : list value)
| FObject (props : list (list N * value)) (key : list N).

Inductive pstate : Type :=
| PValue (stack : list frame)
| PArrayStart (stack : list frame)
| PArrayNext (items : list value) (stack : list frame)
| PObjectStart (stack : list frame)
| PObjectKey (props : list (list N * value)) (stack : list frame)
| PObjectColon (props : list (list N * value)) (key : list N) (stack : list frame)
| PObjectNext (props : list (list N * value)) (stack : list frame)
| PDone (v : value).

(** A value is complete: it goes where the enclosing frame wants it. *)
Definition complete (v : value) (stack : list frame) : pstate :=
  match stack with
  | [] => PDone v
  | FArray items :: stack' => PArrayNext (items ++ [v]) stack'
  | FObject props key :: stack' => PObjectNext (define props key v) stack'
  end.

Definition beginValue (stack : list frame) (t : token) : option pstate :=
  match t with
  | TLBracket => Some (PArrayStart stack)
  | TLBrace => Some (PObjectStart stack)
  | TString s => Some (complete (String s) stack)
  | TNumber l => Some (complete (Number l) stack)
  | TTrue => Some (complete (Bool true) stack)
  | TFalse => Some (complete (Bool false) stack)
  | TNull => Some (complete Null stack)
  | TRBrace | TRBracket | TColon | TComma => None
  end.

Definition step (st : pstate) (t : token) : option pstate :=
  match st with
  | PValue stack => beginValue stack t
  | PArrayStart stack =>
      match t with
      | TRBracket => Some (complete (Array []) stack)
      | _ => beginValue (FArray [] :: stack) t
      end
  | PArrayNext items stack =>
      match t with
      | TComma => Some (PValue (FArray items :: stack))
      | TRBracket => Some (complete (Array items) stack)
      | _ => None
      end
  | PObjectStart stack =>
      match t with
      | TRBrace => Some (complete (Object []) stack)
      | TString k => Some (PObjectColon [] k stack)
      | _ => None
      end
  | PObjectKey props stack =>
      match t with
      | TString k => Some (PObjectColon props k stack)
      | _ => None
      end
  | PObjectColon props key stack =>
      match t with
      | TColon => Some (PValue (FObject props key :: stack))
      | _ => None
      end
  | PObjectNext props stack =>
      match t with
      | TComma => Some (PObjectKey props stack)
      | TRBrace => Some (complete (Object props) stack)
      | _ => None
      end
  | PDone _ => None
  end.

Fixpoint steps (st : pstate) (toks : list token) : option pstate :=
  match toks with
  | [] => Some st
  | t :: toks' =>
      match step st t with
      | Some st' => steps st' toks'
      | None => None
      end
  end.

(** [JSON.parse(text)]; [None] when it throws. *)
Definition parse (text : list N) : option value :=
  match lex LStart text with
  | Some toks =>
      match steps (PValue []) toks with
      | Some (PDone v) => Some v
      | _ => None
      end
  | None => None
  end.

(** *** JSON.stringify *)

Definition hexDigit (n : N) : N := if n <? 10 then 48 + n else 87 + n.

(** [\uXXXX] with lower-case digits. *)
Definition unicodeEscape (c : N) : list N :=
  [92; 117; hexDigit (c / 4096 mod 16); hexDigit (c / 256 mod 16);
   hexDigit (c / 16 mod 16); hexDigit (c mod 16)].

Definition isLeadingSurrogate (c : N) : bool := (55296 <=? c) && (c <=? 56319).
Definition isTrailingSurrogate (c : N) : bool := (56320 <=? c) && (c <=? 57343).

(** The body of QuoteJSONString: the two-character escapes, [\u] escapes
    for the other control characters and for surrogates without their
    pair, every other code point as it is. *)
Fixpoint quoteBody (s : list N) : list N :=
  match s with
  | [] => []
  | c :: s' =>
      if c =? 8 then 92 :: 98 :: quoteBody s'
      else if c =? 9 then 92 :: 116 :: quoteBody s'
      else if c =? 10 then 92 :: 110 :: quoteBody s'
      else if c =? 12 then 92 :: 102 :: quoteBody s'
      else if c =? 13 then 92 :: 114 :: quoteBody s'
      else if c =? 34 then 92 :: 34 :: quoteBody s'
      else if c =? 92 then 92 :: 92 :: quoteBody s'
      else if c <? 32 then unicodeEscape c ++ quoteBody s'
      else if isLeadingSurrogate c then
        match s' with
        | d :: s'' =>
            if isTrailingSurrogate d then c :: d :: quoteBody s''
            else unicodeEscape c ++ quoteBody s'
        | [] => unicodeEscape c
        end
      else if isTrailingSurrogate c then unicodeEscape c ++ quoteBody s'
      else c :: quoteBody s'
  end.

Definition quote (s : list N) : list N := 34 :: quoteBody s ++ [34].

Section Stringify.

(** What JSON.stringify prints for the number a lexeme denotes. *)
Variable numberImage : list N -> list N.

(** The indentation unit, [gap]: the third argument of JSON.stringify
    turned into that many spaces. *)
Variable gap : list N.

(** SerializeJSONProperty at the indentation [indent]. *)
Fixpoint serialize (indent : list N) (v : value) : list N :=
  match v with
  | Null => Js.str "null"
  | Bool true => Js.str "true"
  | Bool false => Js.str "false"
  | Number lexeme => numberImage lexeme
  | String s => quote s
  | Array items =>
      match items with
      | [] => Js.str "[]"
      | _ :: _ =>
          let inner := indent ++ gap in
          Js.str "[" ++ [10] ++ inner
          ++ Js.join (Js.str "," ++ [10] ++ inner) (map (serialize inner) items)
          ++ [10] ++ indent ++ Js.str "]"
      end
  | Object props =>
      match props with
      | [] => Js.str "{}"
      | _ :: _ =>
          let inner := indent ++ gap in
          Js.str "{" ++ [10] ++ inner
          ++ Js.join (Js.str "," ++ [10] ++ inner)
               (map (fun kv => quote (fst kv) ++ Js.str ": " ++ serialize inner (snd kv))
                    props)
          ++ [10] ++ indent ++ Js.str "}"
      end
  end.

End Stringify.

(** [JSON.stringify(value, null, 2)] *)
Definition stringify (numberImage : list N -> list N) (v : value) : list N :=
  serialize numberImage (Js.str "  ") [] v.

End JSON.

(** ** The endpoint descriptors of ApiTestPanel.tsx

    The fields that only the markup reads ([description],
    [fullDescription], [tag], [codeExample], the [type] of a parameter or
    of a field, the [accept] list of an upload) are left out. *)

Inductive Method : Type := GET | POST | PUT | DELETE | PATCH.

Module ApiParameter.
(** [interface Parameter]; [in_] is its optional field [in]. *)
Record t : Type := {
  name : list N;
  required : bool;
  in_ : option (list N)
}.
End ApiParameter.

Module FormField.
Record t : Type := {
  name : list N;
  required : bool;
  defaultValue : option (list N)
}.
End FormField.

Module FileUpload.
Record t : Type := {
  required : bool;
  multiple : bool;
  name : list N
}.
End FileUpload.

Module ApiEndpoint.
Record t : Type := {
  id : list N;
  method : Method;
  path : list N;
  parameters : option (list ApiParameter.t);
  formFields : option (list FormField.t);
  fileUpload : option FileUpload.t;
  requestBodyType : option (list N)
}.
End ApiEndpoint.

(** A [File] handle of the file picker. *)
Record File : Type := { file_name : list N }.

(** ** The panel: state, effects and handlers *)

Module Panel.

(** The eight [useState] cells of the component. *)
Record PanelState : Type := {
  apiKey : list N;
  selectedFiles : list File;
  formData : gmap (list N) (list N);
  pathParams : gmap (list N) (list N);
  response : list N;
  responseStatus : option N;
  isLoading : bool;
  error : list N
}.

Inductive FormDataEntryValue : Type :=
| FileValue (f : File)
| StringValue (s : list N).

(** A [FormData] object: the entries in the order of the [append] calls. *)
Definition FormData : Type := list (list N * FormDataEntryValue).

Record RequestInit : Type := {
  method : Method;
  headers : list (list N * list N);
  body : option FormData
}.

Record Toast : Type := {
  title : list N;
  description : list N;
  variant : option (list N)
}.

(** What a handler does to the world, in the order it does it. *)
Inductive Effect : Type :=
| setIsLoading (b : bool)
| setError (s : list N)
| setResponse (s : list N)
| setResponseStatus (o : option N)
| toast (t : Toast)
| fetch (url : list N) (init : RequestInit).

(** A thrown value: an [Error] instance with its message, or anything
    else. *)
Inductive Thrown : Type :=
| ErrorInstance (message : list N)
| OtherValue.

Inductive Outcome (A : Type) : Type :=
| Returned (a : A)
| Threw (e : Thrown).
Arguments Returned {A} a.
Arguments Threw {A} e.

(** A [Response]: [text] is how the promise of [text()] settles. *)
Record Response : Type := {
  status : N;
  statusText : list N;
  text : Outcome (list N)
}.

(** [response.ok]: the status is in the range 200 to 299. *)
Definition ok (r : Response) : bool := (200 <=? status r) && (status r <=? 299).

(** How [await fetch(url, init)] settles. *)
Definition Network : Type := list N -> RequestInit -> Outcome Response.

(** *** Computations that perform effects and may throw *)

Definition Exec (A : Type) : Type := list Effect * Outcome A.

Definition ret {A} (a : A) : Exec A := ([], Returned a).

Definition bind {A B} (m : Exec A) (k : A -> Exec B) : Exec B :=
  match m with
  | (w, Returned a) => let (w', r) := k a in (w ++ w', r)
  | (w, Threw e) => (w, Threw e)
  end.

Definition perform (e : Effect) : Exec unit := ([e], Returned tt).

Definition settle {A} (o : Outcome A) : Exec A := ([], o).

(** [try { body } catch (err) { handler }] *)
Definition tryCatch {A} (body : Exec A) (handler : Thrown -> Exec A) : Exec A :=
  match body with
  | (w, Returned a) => (w, Returned a)
  | (w, Threw e) => let (w', r) := handler e in (w ++ w', r)
  end.

(** [try { body } finally { finalizer }] *)
Definition tryFinally {A} (body : Exec A) (finalizer : Exec unit) : Exec A :=
  let (w, r) := body in
  match finalizer with
  | (w', Returned _) => (w ++ w', r)
  | (w', Threw e) => (w ++ w', Threw e)
  end.

Notation "x <- m ;; k" := (bind m (fun x => k))
  (at level 100, m at next level, right associativity).
Notation "m ;; k" := (bind m (fun _ => k))
  (at level 100, right associativity).

(** [array?.forEach(f)] where [f] updates a local variable of type [S]:
    nothing happens when the array is absent. *)
Definition forEach {A S : Type} (array : option (list A)) (f : S -> A -> S) (s : S) : S :=
  match array with
  | Some l => fold_left f l s
  | None => s
  end.

(** [a === b] on an optional string and a string. *)
Definition strictEq (a : option (list N)) (b : list N) : bool :=
  match a with Some a' => Js.eqb a' b | None => false end.

(** Truthiness of [record[key]]. *)
Definition lookupTruthy (m : gmap (list N) (list N)) (key : list N) : bool :=
  match m !! key with Some v => Js.truthy v | None => false end.

(** [!record[key]?.trim()] *)
Definition blank (m : gmap (list N) (list N)) (key : list N) : bool :=
  match m !! key with
  | Some v => negb (Js.truthy (Js.trim v))
  | None => true
  end.

Section Handlers.

Variable numberImage : list N -> list N.
Variable network : Network.
Variable endpoint : ApiEndpoint.t.

(** The initializer passed to [useState]: the default of every form
    field, the empty string where there is none. *)
Definition initialFormData : gmap (list N) (list N) :=
  forEach (ApiEndpoint.formFields endpoint)
    (fun initialFormData field =>
       <[FormField.name field :=
           match FormField.defaultValue field with
           | Some d => if Js.truthy d then d else []
           | None => []
           end]> initialFormData)
    ∅.

(** The state after the first render: every cell at the value given
    to its [useState], and [formData] at what the initializer sets. *)
Definition mount : PanelState :=
  {| apiKey := []; selectedFiles := []; formData := initialFormData;
     pathParams := ∅; response := []; responseStatus := None;
     isLoading := false; error := [] |}.

Definition handleFileSelect (files : list File) (st : PanelState) : PanelState :=
  let next :=
    if match ApiEndpoint.fileUpload endpoint with
       | Some u => FileUpload.multiple u
       | None => false
       end
    then selectedFiles st ++ files
    else take 1 files in
  {| apiKey := apiKey st; selectedFiles := next; formData := formData st;
     pathParams := pathParams st; response := response st;
     responseStatus := responseStatus st; isLoading := isLoading st;
     error := error st |}.

(** [array.filter((x, i) => p(x, i))], the index counted from [i]. *)
Fixpoint filterWithIndex {A : Type} (p : A -> nat -> bool) (i : nat) (l : list A) : list A :=
  match l with
  | [] => []
  | x :: l' =>
      if p x i then x :: filterWithIndex p (S i) l'
      else filterWithIndex p (S i) l'
  end.

(** [removeFile(index)]: [prev.filter((_, i) => i !== index)]. *)
Definition removeFile (index : nat) (st : PanelState) : PanelState :=
  {| apiKey := apiKey st;
     selectedFiles :=
       filterWithIndex (fun _ i => negb (Nat.eqb i index)) 0 (selectedFiles st);
     formData := formData st;
     pathParams := pathParams st; response := response st;
     responseStatus := responseStatus st; isLoading := isLoading st;
     error := error st |}.

Definition handleFormDataChange (name value : list N) (st : PanelState) : PanelState :=
  {| apiKey := apiKey st; selectedFiles := selectedFiles st;
     formData := <[name := value]> (formData st);
     pathParams := pathParams st; response := response st;
     responseStatus := responseStatus st; isLoading := isLoading st;
     error := error st |}.

Definition handlePathParamChange (name value : list N) (st : PanelState) : PanelState :=
  {| apiKey := apiKey st; selectedFiles := selectedFiles st;
     formData := formData st;
     pathParams := <[name := value]> (pathParams st); response := response st;
     responseStatus := responseStatus st; isLoading := isLoading st;
     error := error st |}.

(** The [onChange] of the API key input. *)
Definition setApiKey (value : list N) (st : PanelState) : PanelState :=
  {| apiKey := value; selectedFiles := selectedFiles st;
     formData := formData st;
     pathParams := pathParams st; response := response st;
     responseStatus := responseStatus st; isLoading := isLoading st;
     error := error st |}.

Definition buildApiUrl (st : PanelState) : list N :=
  let url := Js.str "https://kong-uat-proxy.hachiai.com/quest"
             ++ ApiEndpoint.path endpoint in
  forEach (ApiEndpoint.parameters endpoint)
    (fun url param =>
       if strictEq (ApiParameter.in_ param) (Js.str "path")
          && lookupTruthy (pathParams st) (ApiParameter.name param)
       then Js.replace url
              (Js.str "{" ++ ApiParameter.name param ++ Js.str "}")
              (default [] (pathParams st !! ApiParameter.name param))
       else url)
    url.

(** The [missingFields] array when the three checks are done. *)
Definition missingFields (st : PanelState) : list (list N) :=
  let missingFields := [] in
  let missingFields :=
    if match ApiEndpoint.fileUpload endpoint with
       | Some u => FileUpload.required u
       | None => false
       end && (length (selectedFiles st) =? 0)%nat
    then missingFields ++ [Js.str "file(s)"]
    else missingFields in
  let missingFields :=
    forEach (ApiEndpoint.formFields endpoint)
      (fun missingFields field =>
         if FormField.required field && blank (formData st) (FormField.name field)
         then missingFields ++ [FormField.name field]
         else missingFields)
      missingFields in
  forEach (ApiEndpoint.parameters endpoint)
    (fun missingFields param =>
       if ApiParameter.required param
          && strictEq (ApiParameter.in_ param) (Js.str "path")
          && blank (pathParams st) (ApiParameter.name param)
       then missingFields ++ [ApiParameter.name param]
       else missingFields)
    missingFields.

(** The [body] variable when the request is sent. *)
Definition buildBody (st : PanelState) : option FormData :=
  match ApiEndpoint.method endpoint with
  | GET => None
  | _ =>
      if strictEq (ApiEndpoint.requestBodyType endpoint) (Js.str "multipart/form-data")
      then
        let body : FormData := [] in
        let body :=
          match ApiEndpoint.fileUpload endpoint with
          | Some u =>
              fold_left (fun body file => body ++ [(FileUpload.name u, FileValue file)])
                (selectedFiles st) body
          | None => body
          end in
        Some (forEach (ApiEndpoint.formFields endpoint)
                (fun body field =>
                   match formData st !! FormField.name field with
                   | Some value => body ++ [(FormField.name field, StringValue value)]
                   | None => body
                   end)
                body)
      else None
  end.

Definition destructive : option (list N) := Some (Js.str "destructive").

Definition handleApiCall (st : PanelState) : Exec unit :=
  if negb (Js.truthy (Js.trim (apiKey st))) then
    perform (toast {| title := Js.str "Error";
                      description := Js.str "Please enter your API key";
                      variant := destructive |})
  else
    let missingFields := missingFields st in
    if (0 <? length missingFields)%nat then
      perform (toast {| title := Js.str "Missing Required Fields";
                        description := Js.str "Please provide: "
                                       ++ Js.join (Js.str ", ") missingFields;
                        variant := destructive |})
    else
      perform (setIsLoading true);;
      perform (setError []);;
      perform (setResponse []);;
      perform (setResponseStatus None);;
      tryFinally
        (tryCatch
           (let url := buildApiUrl st in
            let headers := [(Js.str "apiKey", apiKey st)] in
            let body := buildBody st in
            let fetchOptions :=
              {| method := ApiEndpoint.method endpoint;
                 headers := headers; body := body |} in
            perform (fetch url fetchOptions);;
            apiResponse <- settle (network url fetchOptions);;
            responseText <- settle (text apiResponse);;
            perform (setResponseStatus (Some (status apiResponse)));;
            match JSON.parse responseText with
            | Some jsonResponse =>
                perform (setResponse (JSON.stringify numberImage jsonResponse))
            | None => perform (setResponse responseText)
            end;;
            if negb (ok apiResponse) then
              perform (setError (Js.str "HTTP " ++ Js.numberToString (status apiResponse)
                                 ++ Js.str ": " ++ statusText apiResponse));;
              perform (toast {| title := Js.str "API Error";
                                description := Js.str "Request failed with status "
                                               ++ Js.numberToString (status apiResponse);
                                variant := destructive |})
            else
              perform (toast {| title := Js.str "Success";
                                description := Js.str "API request completed successfully";
                                variant := None |}))
           (fun err =>
              let errorMessage :=
                match err with
                | ErrorInstance message => message
                | OtherValue => Js.str "An unexpected error occurred"
                end in
              perform (setError errorMessage);;
              perform (setResponse (Js.str "Error: " ++ errorMessage));;
              perform (toast {| title := Js.str "Request Failed";
                                description := errorMessage;
                                variant := destructive |})))
        (perform (setIsLoading false)).

(** [`${endpoint.method}`] *)
Definition methodName (m : Method) : list N :=
  match m with
  | GET => Js.str "GET"
  | POST => Js.str "POST"
  | PUT => Js.str "PUT"
  | DELETE => Js.str "DELETE"
  | PATCH => Js.str "PATCH"
  end.

(** [formData[field.name] || field.defaultValue || ""] *)
Definition effectiveValue (st : PanelState) (field : FormField.t) : list N :=
  if lookupTruthy (formData st) (FormField.name field)
  then default [] (formData st !! FormField.name field)
  else match FormField.defaultValue field with
       | Some d => if Js.truthy d then d else []
       | None => []
       end.

(** The cURL command shown beside the form.  A backslash and a line feed
    (code units 92 and 10) end every line but the last. *)
Definition generateCurlCommand (st : PanelState) : list N :=
  let url := buildApiUrl st in
  let curlCommand :=
    Js.str "curl -X " ++ methodName (ApiEndpoint.method endpoint)
    ++ Js.dq " '" ++ url ++ Js.dq "' " ++ [92; 10]
    ++ Js.dq "  -H 'apiKey: YOUR_API_KEY'" in
  if match ApiEndpoint.method endpoint with GET => false | _ => true end
     && strictEq (ApiEndpoint.requestBodyType endpoint) (Js.str "multipart/form-data")
  then
    let curlCommand :=
      match ApiEndpoint.fileUpload endpoint with
      | Some u =>
          if (0 <? length (selectedFiles st))%nat then
            fold_left
              (fun curlCommand file =>
                 curlCommand ++ Js.str " " ++ [92; 10] ++ Js.dq "  -F '"
                 ++ FileUpload.name u ++ Js.str "=@" ++ file_name file ++ Js.dq "'")
              (selectedFiles st) curlCommand
          else curlCommand
      | None => curlCommand
      end in
    forEach (ApiEndpoint.formFields endpoint)
      (fun curlCommand field =>
         let value := effectiveValue st field in
         if Js.truthy value then
           curlCommand ++ Js.str " " ++ [92; 10] ++ Js.dq "  -F '"
           ++ FormField.name field ++ Js.str "=" ++ value ++ Js.dq "'"
         else curlCommand)
      curlCommand
  else curlCommand.

(** *** What the markup shows

    The conditions under which the cards of the panel are rendered, and
    what their inputs hold. *)

(** [endpoint.parameters && endpoint.parameters.some(p => p.in === "path")] *)
Definition showPathParameters : bool :=
  match ApiEndpoint.parameters endpoint with
  | Some params => existsb (fun p => strictEq (ApiParameter.in_ p) (Js.str "path")) params
  | None => false
  end.

(** The parameters that get an input:
    [endpoint.parameters.filter(param => param.in === "path")]. *)
Definition pathParameterInputs : list ApiParameter.t :=
  match ApiEndpoint.parameters endpoint with
  | Some params =>
      List.filter (fun param => strictEq (ApiParameter.in_ param) (Js.str "path")) params
  | None => []
  end.

(** The upload card: [endpoint.fileUpload && ...]. *)
Definition showFileUpload : bool :=
  match ApiEndpoint.fileUpload endpoint with Some _ => true | None => false end.

(** [endpoint.formFields && endpoint.formFields.length > 0] *)
Definition showFormFields : bool :=
  match ApiEndpoint.formFields endpoint with
  | Some fields => (0 <? length fields)%nat
  | None => false
  end.

(** The fields that get an input: [endpoint.formFields.map(...)]. *)
Definition formFieldInputs : list FormField.t :=
  match ApiEndpoint.formFields endpoint with
  | Some fields => fields
  | None => []
  end.

(** The value an input shows: [record[name] || ""]. *)
Definition inputValue (m : gmap (list N) (list N)) (name : list N) : list N :=
  if lookupTruthy m name then default [] (m !! name) else [].

(** The response card: [(response || error) && ...]. *)
Definition showResponse (st : PanelState) : bool :=
  Js.truthy (response st) || Js.truthy (error st).

(** What stands for the status in the title of the response card:
    nothing for [null]; the bare number for 0, which is falsy but which
    React prints; otherwise a badge, green for a status from 200 to 299
    and red for any other. *)
Inductive StatusView : Type :=
| NoStatus
| BareNumber (n : N)
| Badge (green : bool) (n : N).

(** [responseStatus && <Badge className={responseStatus >= 200 &&
    responseStatus < 300 ? green : red}>{responseStatus}</Badge>] *)
Definition statusView (st : PanelState) : StatusView :=
  match responseStatus st with
  | None => NoStatus
  | Some n =>
      if n =? 0 then BareNumber n
      else Badge ((200 <=? n) && (n <? 300)) n
  end.

(** The button: [disabled={isLoading}]. *)
Definition tryItDisabled (st : PanelState) : bool := isLoading st.

End Handlers.

(** *** From a trace to the state *)

Definition apply (st : PanelState) (e : Effect) : PanelState :=
  match e with
  | setIsLoading b =>
      {| apiKey := apiKey st; selectedFiles := selectedFiles st;
         formData := formData st; pathParams := pathParams st;
         response := response st; responseStatus := responseStatus st;
         isLoading := b; error := error st |}
  | setError s =>
      {| apiKey := apiKey st; selectedFiles := selectedFiles st;
         formData := formData st; pathParams := pathParams st;
         response := response st; responseStatus := responseStatus st;
         isLoading := isLoading st; error := s |}
  | setResponse s =>
      {| apiKey := apiKey st; selectedFiles := selectedFiles st;
         formData := formData st; pathParams := pathParams st;
         response := s; responseStatus := responseStatus st;
         isLoading := isLoading st; error := error st |}
  | setResponseStatus o =>
      {| apiKey := apiKey st; selectedFiles := selectedFiles st;
         formData := formData st; pathParams := pathParams st;
         response := response st; responseStatus := o;
         isLoading := isLoading st; error := error st |}
  | toast _ | fetch _ _ => st
  end.

(** The state once every setter of the trace has been applied. *)
Definition run (st : PanelState) (trace : list Effect) : PanelState :=
  fold_left apply trace st.

Definition isFetch (e : Effect) : bool :=
  match e with fetch _ _ => true | _ => false end.

(** The network calls of a trace. *)
Definition networkCalls (trace : list Effect) : list Effect :=
  List.filter isFetch trace.

End Panel.

(** ** The page: catalog and selection (Index.tsx)

    [Index] holds the id of the selected endpoint and renders one
    [<ApiTestPanel endpoint={currentEndpoint} />], always at the same
    place and without a [key].  React therefore keeps the panel's state
    cells from one render to the next: a new [endpoint] prop changes what
    the handlers read, not what the cells hold.  The initializer given to
    [useState] runs for the first render only, and [useState] has no
    dependency list: the second argument [[endpoint]] is not looked at. *)

Module Index.

(** The four entries of the [realEndpoints] array. *)

Definition classify : ApiEndpoint.t :=
  {| ApiEndpoint.id := Js.str "classify";
     ApiEndpoint.method := POST;
     ApiEndpoint.path := Js.str "/v1/classify";
     ApiEndpoint.parameters := Some [];
     ApiEndpoint.formFields := None;
     ApiEndpoint.fileUpload :=
       Some {| FileUpload.required := true; FileUpload.multiple := false;
               FileUpload.name := Js.str "file" |};
     ApiEndpoint.requestBodyType := Some (Js.str "multipart/form-data") |}.

Definition extractAsync : ApiEndpoint.t :=
  {| ApiEndpoint.id := Js.str "extract-async";
     ApiEndpoint.method := POST;
     ApiEndpoint.path := Js.str "/v1/extract/async";
     ApiEndpoint.parameters := Some [];
     ApiEndpoint.formFields :=
       Some [ {| FormField.name := Js.str "query"; FormField.required := true;
                 FormField.defaultValue := None |};
              {| FormField.name := Js.str "tags"; FormField.required := false;
                 FormField.defaultValue := Some (Js.str "[]") |} ];
     ApiEndpoint.fileUpload :=
       Some {| FileUpload.required := true; FileUpload.multiple := true;
               FileUpload.name := Js.str "files" |};
     ApiEndpoint.requestBodyType := Some (Js.str "multipart/form-data") |}.

Definition extract : ApiEndpoint.t :=
  {| ApiEndpoint.id := Js.str "extract";
     ApiEndpoint.method := POST;
     ApiEndpoint.path := Js.str "/v1/extract";
     ApiEndpoint.parameters := Some [];
     ApiEndpoint.formFields :=
       Some [ {| FormField.name := Js.str "query"; FormField.required := true;
                 FormField.defaultValue := None |};
              {| FormField.name := Js.str "tags"; FormField.required := false;
                 FormField.defaultValue := Some (Js.str "[]") |} ];
     ApiEndpoint.fileUpload :=
       Some {| FileUpload.required := true; FileUpload.multiple := true;
               FileUpload.name := Js.str "files" |};
     ApiEndpoint.requestBodyType := Some (Js.str "multipart/form-data") |}.

Definition trace : ApiEndpoint.t :=
  {| ApiEndpoint.id := Js.str "trace";
     ApiEndpoint.method := GET;
     ApiEndpoint.path := Js.str "/v1/trace_id/{trace_id}";
     ApiEndpoint.parameters :=
       Some [ {| ApiParameter.name := Js.str "trace_id";
                 ApiParameter.required := true;
                 ApiParameter.in_ := Some (Js.str "path") |} ];
     ApiEndpoint.formFields := None;
     ApiEndpoint.fileUpload := None;
     ApiEndpoint.requestBodyType := None |}.

Definition realEndpoints : list ApiEndpoint.t :=
  [classify; extractAsync; extract; trace].

(** [endpoints.find(ep => ep.id === selectedEndpoint) || endpoints[0]] *)
Definition currentEndpoint (endpoints : list ApiEndpoint.t) (selectedEndpoint : list N)
  : option ApiEndpoint.t :=
  match find (fun ep => Js.eqb (ApiEndpoint.id ep) selectedEndpoint) endpoints with
  | Some ep => Some ep
  | None => head endpoints
  end.

(** The page: its own state cell and the cells of the panel it renders. *)
Record App : Type := {
  selectedEndpoint : list N;
  panel : Panel.PanelState
}.

(** The first render: [useState("classify")], and the panel mounted on
    the endpoint that id selects. *)
Definition start (endpoints : list ApiEndpoint.t) : option App :=
  match currentEndpoint endpoints (Js.str "classify") with
  | Some ep => Some {| selectedEndpoint := Js.str "classify"; panel := Panel.mount ep |}
  | None => None
  end.

(** [onSelectEndpoint={setSelectedEndpoint}]: a click in the sidebar sets
    the id; the panel is rendered again with the new endpoint and the
    cells it already has. *)
Definition setSelectedEndpoint (endpointId : list N) (app : App) : App :=
  {| selectedEndpoint := endpointId; panel := panel app |}.

End Index.

(** ** The sidebar (ApiSidebar.tsx) *)

Module ApiSidebar.

(** The entry of an endpoint is highlighted when
    [selectedEndpoint === endpoint.id]. *)
Definition highlighted (selectedEndpoint : list N) (endpoint : ApiEndpoint.t) : bool :=
  Js.eqb selectedEndpoint (ApiEndpoint.id endpoint).

(** [onClick={() => onSelectEndpoint(endpoint.id)}], with the
    [setSelectedEndpoint] that the page passes for [onSelectEndpoint]. *)
Definition click (endpoint : ApiEndpoint.t) (app : Index.App) : Index.App :=
  Index.setSelectedEndpoint (ApiEndpoint.id endpoint) app.

End ApiSidebar.

(** ** The specification's words, as definitions

    What the specification says the request builder and the executor compute, to be
    compared with what the handlers of [Panel] compute. *)

Module Spec.
Import Panel.

Definition fileRequired (endpoint : ApiEndpoint.t) : bool :=
  match ApiEndpoint.fileUpload endpoint with
  | Some u => FileUpload.required u
  | None => false
  end.

Definition allowsMultiple (endpoint : ApiEndpoint.t) : bool :=
  match ApiEndpoint.fileUpload endpoint with
  | Some u => FileUpload.multiple u
  | None => false
  end.

Definition declaredFields (endpoint : ApiEndpoint.t) : list FormField.t :=
  default [] (ApiEndpoint.formFields endpoint).

Definition declaredParameters (endpoint : ApiEndpoint.t) : list ApiParameter.t :=
  default [] (ApiEndpoint.parameters endpoint).

(** A required upload with no selected file. *)
Definition fileMissing (endpoint : ApiEndpoint.t) (st : PanelState) : bool :=
  fileRequired endpoint && (length (selectedFiles st) =? 0)%nat.

(** A required form field with no value, or a value that trims to the
    empty string. *)
Definition fieldMissing (st : PanelState) (field : FormField.t) : bool :=
  FormField.required field && blank (formData st) (FormField.name field).

(** A required path parameter with no value, or a value that trims to
    the empty string. *)
Definition pathParamMissing (st : PanelState) (param : ApiParameter.t) : bool :=
  ApiParameter.required param
  && strictEq (ApiParameter.in_ param) (Js.str "path")
  && blank (pathParams st) (ApiParameter.name param).

(** Some required input is missing. *)
Definition anyRequiredMissing (endpoint : ApiEndpoint.t) (st : PanelState) : bool :=
  fileMissing endpoint st
  || existsb (fieldMissing st) (declaredFields endpoint)
  || existsb (pathParamMissing st) (declaredParameters endpoint).

(** The names of the missing inputs: the files (under the label the
    panel gives them), then the form fields in the order of their
    declaration, then the path parameters in the order of theirs. *)
Definition requiredMissing (endpoint : ApiEndpoint.t) (st : PanelState) : list (list N) :=
  (if fileMissing endpoint st then [Js.str "file(s)"] else [])
  ++ map FormField.name (List.filter (fieldMissing st) (declaredFields endpoint))
  ++ map ApiParameter.name (List.filter (pathParamMissing st) (declaredParameters endpoint)).

Definition validationError (missing : list (list N)) : Effect :=
  toast {| title := Js.str "Missing Required Fields";
           description := Js.str "Please provide: " ++ Js.join (Js.str ", ") missing;
           variant := destructive |}.

Definition apiKeyError : Effect :=
  toast {| title := Js.str "Error";
           description := Js.str "Please enter your API key";
           variant := destructive |}.

(** The API key is not empty once trimmed. *)
Definition hasApiKey (st : PanelState) : bool := Js.truthy (Js.trim (apiKey st)).

(** The request of a submission that passes validation. *)
Definition requestInit (endpoint : ApiEndpoint.t) (st : PanelState) : RequestInit :=
  {| method := ApiEndpoint.method endpoint;
     headers := [(Js.str "apiKey", apiKey st)];
     body := buildBody endpoint st |}.

(** How the one network call of a submission ends. *)
Definition exchange (network : Network) (endpoint : ApiEndpoint.t) (st : PanelState)
  : Outcome Response :=
  network (buildApiUrl endpoint st) (requestInit endpoint st).

(** What is set before the request leaves. *)
Definition prelude : list Effect :=
  [setIsLoading true; setError []; setResponse []; setResponseStatus None].

(** [bodyText] for a response text: the pretty-printed value when the
    text is JSON, the text itself otherwise. *)
Definition bodyText (numberImage : list N -> list N) (responseText : list N) : list N :=
  match JSON.parse responseText with
  | Some v => JSON.stringify numberImage v
  | None => responseText
  end.

(** [HTTP <status>: <statusText>] *)
Definition httpSummary (r : Response) : list N :=
  Js.str "HTTP " ++ Js.numberToString (status r) ++ Js.str ": " ++ statusText r.

(** The message of a transport failure. *)
Definition transportMessage (e : Thrown) : list N :=
  match e with
  | ErrorInstance message => message
  | OtherValue => Js.str "An unexpected error occurred"
  end.

(** A status in the range from 200, included, to 300, excluded. *)
Definition success (r : Response) : bool := (200 <=? status r) && (status r <? 300).

(** The form-data entries of the selected files. *)
Definition fileEntries (endpoint : ApiEndpoint.t) (st : PanelState) : FormData :=
  match ApiEndpoint.fileUpload endpoint with
  | Some u => map (fun file => (FileUpload.name u, FileValue file)) (selectedFiles st)
  | None => []
  end.

(** One entry per declared field, the empty string for a field that is
    not set: the body as the specification describes it. *)
Definition fieldEntriesWithFallback (endpoint : ApiEndpoint.t) (st : PanelState) : FormData :=
  map (fun field =>
         (FormField.name field,
          StringValue (default [] (formData st !! FormField.name field))))
      (declaredFields endpoint).

(** One entry per declared field that is set. *)
Definition fieldEntries (endpoint : ApiEndpoint.t) (st : PanelState) : FormData :=
  omap (fun field =>
          match formData st !! FormField.name field with
          | Some value => Some (FormField.name field, StringValue value)
          | None => None
          end)
       (declaredFields endpoint).

(** A non-GET endpoint whose body is multipart form data. *)
Definition multipart (endpoint : ApiEndpoint.t) : bool :=
  match ApiEndpoint.method endpoint with GET => false | _ => true end
  && strictEq (ApiEndpoint.requestBodyType endpoint) (Js.str "multipart/form-data").

Definition setsIsLoading (e : Effect) : bool :=
  match e with setIsLoading _ => true | _ => false end.

Definition isSetter (e : Effect) : bool :=
  match e with toast _ | fetch _ _ => false | _ => true end.

(** *** The trace of a submission that passes validation *)

(** The [catch] block. *)
Definition failureTrace (e : Thrown) : list Effect :=
  [setError (transportMessage e);
   setResponse (Js.str "Error: " ++ transportMessage e);
   toast {| title := Js.str "Request Failed";
            description := transportMessage e;
            variant := destructive |}].

(** What follows a response whose text was read. *)
Definition responseTrace (numberImage : list N -> list N) (r : Response)
  (responseText : list N) : list Effect :=
  [setResponseStatus (Some (status r)); setResponse (bodyText numberImage responseText)]
  ++ (if ok r
      then [toast {| title := Js.str "Success";
                     description := Js.str "API request completed successfully";
                     variant := None |}]
      else [setError (httpSummary r);
            toast {| title := Js.str "API Error";
                     description := Js.str "Request failed with status "
                                    ++ Js.numberToString (status r);
                     variant := destructive |}]).

(** What follows the network call, whichever way it ends. *)
Definition completion (numberImage : list N -> list N) (o : Outcome Response)
  : list Effect :=
  match o with
  | Returned r =>
      match text r with
      | Returned responseText => responseTrace numberImage r responseText
      | Threw e => failureTrace e
      end
  | Threw e => failureTrace e
  end.

(** *** Sentences of the specification that the code is compared with *)

(** Selection as the specification describes it: every form field of the new
    endpoint back at its default, no selected file, no response, status
    or error left, the API key kept. *)
Definition resetOnSwitch (endpoint : ApiEndpoint.t) (before after : PanelState) : Prop :=
  (forall field, In field (declaredFields endpoint) ->
     formData after !! FormField.name field
     = Some (default [] (FormField.defaultValue field)))
  /\ selectedFiles after = []
  /\ response after = [] /\ responseStatus after = None /\ error after = []
  /\ apiKey after = apiKey before.

(** A transport failure as the specification describes it: the message of the
    failure in [errorMessage], [bodyText] left empty. *)
Definition transportFailureAsSpecified (e : Thrown) (final : PanelState) : Prop :=
  error final = transportMessage e /\ response final = [].

(** The multipart body as the specification describes it. *)
Definition bodyAsSpecified (endpoint : ApiEndpoint.t) (st : PanelState) : FormData :=
  fileEntries endpoint st ++ fieldEntriesWithFallback endpoint st.

(** The URL as the specification describes it for an endpoint with one path
    parameter [name] that has the non-empty value [value]: the base
    host, then the path with the value in the place of the placeholder. *)
Definition urlAsSpecified (before value after : list N) : list N :=
  Js.str "https://kong-uat-proxy.hachiai.com/quest" ++ before ++ value ++ after.

(** *** Words for the rest of the panel *)

(** The base host of every request. *)
Definition host : list N := Js.str "https://kong-uat-proxy.hachiai.com/quest".

(** The placeholder of a path parameter. *)
Definition placeholder (name : list N) : list N := Js.str "{" ++ name ++ Js.str "}".

(** Two states with the same form inputs. *)
Definition sameInputs (st1 st2 : PanelState) : Prop :=
  apiKey st1 = apiKey st2 /\ selectedFiles st1 = selectedFiles st2
  /\ formData st1 = formData st2 /\ pathParams st1 = pathParams st2.

Definition isToast (e : Effect) : bool :=
  match e with toast _ => true | _ => false end.

(** Every declared form field has a value. *)
Definition allFieldsSet (endpoint : ApiEndpoint.t) (st : PanelState) : Prop :=
  forall field, In field (declaredFields endpoint) ->
    is_Some (formData st !! FormField.name field).

(** The default a field starts with: [field.defaultValue || ""]. *)
Definition startValue (field : FormField.t) : list N :=
  match FormField.defaultValue field with
  | Some d => if Js.truthy d then d else []
  | None => []
  end.

(** The first line of the cURL command, and its header line. *)
Definition curlHead (endpoint : ApiEndpoint.t) (url : list N) : list N :=
  Js.str "curl -X " ++ methodName (ApiEndpoint.method endpoint)
  ++ Js.dq " '" ++ url ++ Js.dq "' " ++ [92; 10]
  ++ Js.dq "  -H 'apiKey: YOUR_API_KEY'".

(** The [-F] line of the cURL command for an entry of a form-data body:
    [name=@file] for a file, [name=value] for a string. *)
Definition curlPart (entry : list N * FormDataEntryValue) : list N :=
  Js.str " " ++ [92; 10] ++ Js.dq "  -F '" ++ fst entry
  ++ match snd entry with
     | FileValue f => Js.str "=@" ++ file_name f
     | StringValue v => Js.str "=" ++ v
     end
  ++ Js.dq "'".

(** The fields of the cURL command: the declared fields whose value,
    or else whose default, is not empty. *)
Definition previewFieldEntries (endpoint : ApiEndpoint.t) (st : PanelState) : FormData :=
  omap (fun field =>
          if Js.truthy (effectiveValue st field)
          then Some (FormField.name field, StringValue (effectiveValue st field))
          else None)
       (declaredFields endpoint).

(** What the response card says agrees with itself: the button is
    enabled; a badge is green exactly when there is no error message; a
    status that is shown without a badge comes with an error message;
    without a status, either nothing is shown or the body is the error
    message after [Error: ]. *)
Definition viewConsistent (st : PanelState) : Prop :=
  tryItDisabled st = false
  /\ match statusView st with
     | Badge green _ => (green = true <-> error st = [])
     | BareNumber _ => error st <> []
     | NoStatus =>
         (response st = [] /\ error st = [])
         \/ response st = Js.str "Error: " ++ error st
     end.

End Spec.

(** ** Sessions: what happens on the page, one event after another

    [handleApiCall] runs in two turns of the event loop.  The first goes
    from the click to the [await] of [fetch]: validation, the four
    resets and the call.  The second starts when the promise of [fetch],
    and after it that of [text()], has settled, and runs without another
    [await] to the end of the [finally] block.  Between the two turns the
    request is pending: the button is disabled, the other handlers and
    the sidebar stay live, and the setters of the second turn write to
    the state as it is by then. *)

Module Session.
Import Panel.

Section Turns.
Variable numberImage : list N -> list N.
Variable endpoint : ApiEndpoint.t.

(** The first turn of [handleApiCall]: what it does up to the [await] of
    [fetch], and the request that is pending after it when one was sent. *)
Definition beforeAwait (st : PanelState) : list Effect * option (list N * RequestInit) :=
  if negb (Js.truthy (Js.trim (apiKey st))) then
    ([toast {| title := Js.str "Error";
               description := Js.str "Please enter your API key";
               variant := destructive |}], None)
  else
    let missingFields := missingFields endpoint st in
    if (0 <? length missingFields)%nat then
      ([toast {| title := Js.str "Missing Required Fields";
                 description := Js.str "Please provide: "
                                ++ Js.join (Js.str ", ") missingFields;
                 variant := destructive |}], None)
    else
      let url := buildApiUrl endpoint st in
      let fetchOptions :=
        {| method := ApiEndpoint.method endpoint;
           headers := [(Js.str "apiKey", apiKey st)];
           body := buildBody endpoint st |} in
      ([setIsLoading true; setError []; setResponse []; setResponseStatus None;
        fetch url fetchOptions],
       Some (url, fetchOptions)).

(** The second turn: the rest of the [try] block for the way [fetch]
    settled, its [catch] block and its [finally] block. *)
Definition afterAwait (settled : Outcome Response) : list Effect :=
  fst (tryFinally
         (tryCatch
            (apiResponse <- settle settled;;
             responseText <- settle (text apiResponse);;
             perform (setResponseStatus (Some (status apiResponse)));;
             match JSON.parse responseText with
             | Some jsonResponse =>
                 perform (setResponse (JSON.stringify numberImage jsonResponse))
             | None => perform (setResponse responseText)
             end;;
             if negb (ok apiResponse) then
               perform (setError (Js.str "HTTP " ++ Js.numberToString (status apiResponse)
                                  ++ Js.str ": " ++ statusText apiResponse));;
               perform (toast {| title := Js.str "API Error";
                                 description := Js.str "Request failed with status "
                                                ++ Js.numberToString (status apiResponse);
                                 variant := destructive |})
             else
               perform (toast {| title := Js.str "Success";
                                 description := Js.str "API request completed successfully";
                                 variant := None |}))
            (fun err =>
               let errorMessage :=
                 match err with
                 | ErrorInstance message => message
                 | OtherValue => Js.str "An unexpected error occurred"
                 end in
               perform (setError errorMessage);;
               perform (setResponse (Js.str "Error: " ++ errorMessage));;
               perform (toast {| title := Js.str "Request Failed";
                                 description := errorMessage;
                                 variant := destructive |})))
         (perform (setIsLoading false))).

End Turns.

Inductive Event : Type :=
| TypeKey (value : list N)
| TypeField (name value : list N)
| TypeParam (name value : list N)
| SelectFiles (files : list File)
| RemoveFile (index : nat)
| Click
| Settle (network : Network)
| Select (endpointId : list N).

(** The page between two events: what it holds, and the request that
    is on its way, if there is one. *)
Record Page : Type := {
  app : Index.App;
  pending : option (list N * RequestInit)
}.

Section Events.
Variable numberImage : list N -> list N.
Variable endpoints : list ApiEndpoint.t.

(** The handlers that run in one turn, on the panel that works on
    [endpoint]. *)
Definition onPanel (endpoint : ApiEndpoint.t) (e : Event) (st : PanelState) : PanelState :=
  match e with
  | TypeKey value => setApiKey value st
  | TypeField name value => handleFormDataChange name value st
  | TypeParam name value => handlePathParamChange name value st
  | SelectFiles files => handleFileSelect endpoint files st
  | RemoveFile index => removeFile index st
  | Click | Settle _ | Select _ => st
  end.

Definition withPanel (page : Page) (st : PanelState)
  (request : option (list N * RequestInit)) : Page :=
  {| app := {| Index.selectedEndpoint := Index.selectedEndpoint (app page);
               Index.panel := st |};
     pending := request |}.

(** One event.  A click in the sidebar sets the selection.  A click on
    the button does nothing while the button is disabled; otherwise the
    first turn of [handleApiCall] runs on the endpoint of the selection.
    When the pending request settles, answered by [network], the second
    turn runs on the state of that moment.  Anything else goes to the
    handler of the panel.  Without an endpoint to show there is no panel
    to act on. *)
Definition act (page : Page) (e : Event) : Page :=
  match e with
  | Select endpointId =>
      {| app := Index.setSelectedEndpoint endpointId (app page);
         pending := pending page |}
  | Settle network =>
      match pending page with
      | Some (url, init) =>
          withPanel page
            (run (Index.panel (app page)) (afterAwait numberImage (network url init)))
            None
      | None => page
      end
  | Click =>
      match Index.currentEndpoint endpoints (Index.selectedEndpoint (app page)) with
      | Some endpoint =>
          if tryItDisabled (Index.panel (app page)) then page
          else
            withPanel page
              (run (Index.panel (app page))
                 (fst (beforeAwait endpoint (Index.panel (app page)))))
              (snd (beforeAwait endpoint (Index.panel (app page))))
      | None => page
      end
  | _ =>
      match Index.currentEndpoint endpoints (Index.selectedEndpoint (app page)) with
      | Some endpoint =>
          withPanel page (onPanel endpoint e (Index.panel (app page))) (pending page)
      | None => page
      end
  end.

Definition play (page : Page) (events : list Event) : Page :=
  fold_left act events page.

End Events.

(** The page at rest on [app]. *)
Definition atRest (app : Index.App) : Page := {| app := app; pending := None |}.

(** What the page shows agrees with what it is doing: at rest the
    response card agrees with itself and the button is enabled; while a
    request is pending the button is disabled and the card shows no
    response, no status and no error. *)
Definition coherent (page : Page) : Prop :=
  match pending page with
  | None => Spec.viewConsistent (Index.panel (app page))
  | Some _ =>
      isLoading (Index.panel (app page)) = true
      /\ response (Index.panel (app page)) = []
      /\ responseStatus (Index.panel (app page)) = None
      /\ error (Index.panel (app page)) = []
  end.

End Session.

(** ** Sample data: endpoints of the catalog, states and networks *)

Module Samples.
Import Panel.

(** An endpoint whose path names its parameter twice. *)
Definition compare : ApiEndpoint.t :=
  {| ApiEndpoint.id := Js.str "compare";
     ApiEndpoint.method := GET;
     ApiEndpoint.path := Js.str "/v1/trace_id/{trace_id}/diff/{trace_id}";
     ApiEndpoint.parameters :=
       Some [ {| ApiParameter.name := Js.str "trace_id";
                 ApiParameter.required := true;
                 ApiParameter.in_ := Some (Js.str "path") |} ];
     ApiEndpoint.formFields := None;
     ApiEndpoint.fileUpload := None;
     ApiEndpoint.requestBodyType := None |}.

Definition fileA : File := {| file_name := Js.str "a.pdf" |}.
Definition fileB : File := {| file_name := Js.str "b.pdf" |}.

(** The numbers of the samples are printed as they are written. *)
Definition asWritten : list N -> list N := fun lexeme => lexeme.

(** A server that answers 200 with [{"status":"ok"}]. *)
Definition serverOk : Network :=
  fun _ _ => Returned {| status := 200; statusText := Js.str "OK";
                         text := Returned (Js.dq "{'status':'ok'}") |}.

(** A server that answers 404 with [{"error":"missing"}]. *)
Definition serverNotFound : Network :=
  fun _ _ => Returned {| status := 404; statusText := Js.str "Not Found";
                         text := Returned (Js.dq "{'error':'missing'}") |}.

(** A server that answers 204 with an empty body. *)
Definition noContent : Network :=
  fun _ _ => Returned {| status := 204; statusText := Js.str "No Content";
                         text := Returned [] |}.

(** No server: [fetch] rejects with a TypeError. *)
Definition unreachable : Network :=
  fun _ _ => Threw (ErrorInstance (Js.str "Failed to fetch")).

(** A key and nothing else. *)
Definition keyOnly : PanelState :=
  {| apiKey := Js.str "secret"; selectedFiles := []; formData := ∅;
     pathParams := ∅; response := Js.str "previous body";
     responseStatus := Some 200; isLoading := false; error := [] |}.

(** No key, spaces only. *)
Definition noKey : PanelState :=
  {| apiKey := Js.str "   "; selectedFiles := []; formData := ∅;
     pathParams := ∅; response := Js.str "previous body";
     responseStatus := Some 200; isLoading := false; error := [] |}.

(** A key, a file and a query; [tags] was never typed in. *)
Definition ready : PanelState :=
  {| apiKey := Js.str "secret"; selectedFiles := [fileA];
     formData := <[Js.str "query" := Js.str "total amount"]> ∅;
     pathParams := ∅; response := Js.str "previous body";
     responseStatus := Some 200; isLoading := false; error := [] |}.

(** A key and a trace id. *)
Definition tracing (traceId : list N) : PanelState :=
  {| apiKey := Js.str "secret"; selectedFiles := [];
     formData := ∅;
     pathParams := <[Js.str "trace_id" := traceId]> ∅;
     response := []; responseStatus := None; isLoading := false; error := [] |}.

(** The page after a classification: on the panel as mounted, the key is
    typed in, a file is chosen and the request is answered by [serverOk]. *)
Definition classifyReady : PanelState :=
  handleFileSelect Index.classify [fileA] (setApiKey (Js.str "secret") (mount Index.classify)).

Definition afterClassify : Index.App :=
  {| Index.selectedEndpoint := Js.str "classify";
     Index.panel :=
       run classifyReady
         (fst (handleApiCall asWritten serverOk Index.classify classifyReady)) |}.

(** The page as it starts on the catalog. *)
Definition startPage : Index.App :=
  {| Index.selectedEndpoint := Js.str "classify"; Index.panel := mount Index.classify |}.

(** A visit: a classification is sent; while it is pending another
    endpoint is selected and its parameter typed in; then the server
    answers that it does not know the document. *)
Definition visit : list Session.Event :=
  [Session.TypeKey (Js.str "secret");
   Session.SelectFiles [fileA];
   Session.Click;
   Session.Select (Js.str "trace");
   Session.TypeParam (Js.str "trace_id") (Js.str "abc123");
   Session.Click;
   Session.Settle serverNotFound].

(** The extraction form filled in. *)
Definition fillIn : list Session.Event :=
  [Session.Select (Js.str "extract-async");
   Session.TypeKey (Js.str "secret");
   Session.TypeField (Js.str "query") (Js.str "total amount");
   Session.TypeField (Js.str "tags") (Js.str "[]")].

(** A request from that form that fails while another endpoint is
    looked at, and the way back to the form. *)
Definition detour : list Session.Event :=
  [Session.SelectFiles [fileA];
   Session.Click;
   Session.Select (Js.str "trace");
   Session.Settle unreachable;
   Session.Select (Js.str "extract-async")].

End Samples.

(** * Properties *)

Import Panel.

(** ** The validation pass computes the list of the specification *)

Section Pushes.
Context {A : Type} (p : A -> bool) (f : A -> list N).

(** A loop that pushes [f x] for the elements that satisfy [p] appends
    the image of the filtered list. *)
Lemma fold_left_push (l : list A) (acc : list (list N)) :
  fold_left (fun acc x => if p x then acc ++ [f x] else acc) l acc
  = acc ++ map f (List.filter p l).
Proof.
  revert acc. induction l as [|x l IH]; intros acc; simpl.
  - by rewrite app_nil_r.
  - rewrite IH. destruct (p x); simpl; [|done].
    by rewrite <- app_assoc.
Qed.

Lemma existsb_filter_nonempty (l : list A) :
  existsb p l = true -> map f (List.filter p l) <> [].
Proof.
  induction l as [|x l IH]; simpl; [discriminate|].
  destruct (p x); simpl; [discriminate|]. exact IH.
Qed.

Lemma filter_none (l : list A) :
  existsb p l = false -> map f (List.filter p l) = [].
Proof.
  induction l as [|x l IH]; simpl; [done|].
  destruct (p x); simpl; [discriminate|]. exact IH.
Qed.
End Pushes.

Lemma missingFields_spec (endpoint : ApiEndpoint.t) (st : PanelState) :
  missingFields endpoint st = Spec.requiredMissing endpoint st.
Proof.
  unfold missingFields, Spec.requiredMissing, Spec.fileMissing, Spec.fileRequired,
    Spec.declaredFields, Spec.declaredParameters, forEach.
  destruct (_ && _); simpl;
  destruct (ApiEndpoint.formFields endpoint) as [fields|];
    destruct (ApiEndpoint.parameters endpoint) as [params|]; simpl;
    rewrite ?(fold_left_push (Spec.pathParamMissing st) ApiParameter.name),
            ?(fold_left_push (Spec.fieldMissing st) FormField.name),
            ?app_nil_r, <- ?app_assoc; reflexivity.
Qed.

Lemma requiredMissing_nonempty (endpoint : ApiEndpoint.t) (st : PanelState) :
  Spec.anyRequiredMissing endpoint st = true ->
  (0 <? length (Spec.requiredMissing endpoint st))%nat = true.
Proof.
  unfold Spec.anyRequiredMissing, Spec.requiredMissing. intros H.
  apply Nat.ltb_lt.
  destruct (Spec.fileMissing endpoint st); simpl in *; [lia|].
  rewrite !length_app, !length_map.
  apply orb_true_iff in H as [H|H].
  - apply (existsb_filter_nonempty _ FormField.name) in H.
    destruct (List.filter _ _); simpl in *; [done|lia].
  - apply (existsb_filter_nonempty _ ApiParameter.name) in H.
    destruct (List.filter (Spec.pathParamMissing st) _); simpl in *; [done|lia].
Qed.

Lemma requiredMissing_empty (endpoint : ApiEndpoint.t) (st : PanelState) :
  Spec.anyRequiredMissing endpoint st = false ->
  Spec.requiredMissing endpoint st = [].
Proof.
  unfold Spec.anyRequiredMissing, Spec.requiredMissing. intros H.
  apply orb_false_iff in H as [H Hp]. apply orb_false_iff in H as [Hf Hd].
  rewrite Hf. simpl.
  by rewrite (filter_none _ FormField.name _ Hd), (filter_none _ ApiParameter.name _ Hp).
Qed.

(** ** The three ways a submission runs *)

Section Submission.
Variable numberImage : list N -> list N.
Variable network : Network.
Variable endpoint : ApiEndpoint.t.
Variable st : PanelState.

Lemma submit_without_key :
  Spec.hasApiKey st = false ->
  handleApiCall numberImage network endpoint st = ([Spec.apiKeyError], Returned tt).
Proof.
  unfold Spec.hasApiKey. intros H. unfold handleApiCall.
  by rewrite H.
Qed.

Lemma submit_invalid :
  Spec.hasApiKey st = true ->
  Spec.anyRequiredMissing endpoint st = true ->
  handleApiCall numberImage network endpoint st
  = ([Spec.validationError (Spec.requiredMissing endpoint st)], Returned tt).
Proof.
  unfold Spec.hasApiKey. intros Hk Hm. unfold handleApiCall.
  rewrite Hk, missingFields_spec, (requiredMissing_nonempty _ _ Hm). reflexivity.
Qed.

Lemma submit_valid :
  Spec.hasApiKey st = true ->
  Spec.anyRequiredMissing endpoint st = false ->
  handleApiCall numberImage network endpoint st
  = (Spec.prelude
     ++ fetch (buildApiUrl endpoint st) (Spec.requestInit endpoint st)
        :: Spec.completion numberImage (Spec.exchange network endpoint st)
     ++ [setIsLoading false],
     Returned tt).
Proof.
  unfold Spec.hasApiKey. intros Hk Hm. unfold handleApiCall.
  rewrite Hk, missingFields_spec, (requiredMissing_empty _ _ Hm). simpl.
  unfold Spec.exchange, Spec.requestInit, Spec.completion.
  destruct (network _ _) as [r|e]; simpl; [|by destruct e].
  unfold Spec.responseTrace, Spec.bodyText.
  destruct (text r) as [t|e]; simpl; [|by destruct e].
  destruct (JSON.parse t); simpl; destruct (ok r); reflexivity.
Qed.

(** Nothing that follows the network call sets [isLoading]. *)
Lemma completion_keeps_isLoading (o : Outcome Response) :
  forallb (fun e => negb (Spec.setsIsLoading e)) (Spec.completion numberImage o) = true.
Proof.
  destruct o as [r|e]; simpl; [|reflexivity].
  destruct (text r); simpl; [|reflexivity].
  unfold Spec.responseTrace. by destruct (ok r).
Qed.

(** The call itself is the only [fetch] of what follows the prelude. *)
Lemma completion_no_fetch (o : Outcome Response) :
  networkCalls (Spec.completion numberImage o) = [].
Proof.
  destruct o as [r|e]; simpl; [|reflexivity].
  destruct (text r); simpl; [|reflexivity].
  unfold Spec.responseTrace. by destruct (ok r).
Qed.

End Submission.

(** Effects that do not set [isLoading] leave it as it is. *)
Lemma run_keeps_isLoading (trace : list Effect) (st : PanelState) :
  forallb (fun e => negb (Spec.setsIsLoading e)) trace = true ->
  isLoading (run st trace) = isLoading st.
Proof.
  unfold run. revert st.
  induction trace as [|e trace IH]; intros st H; simpl in *; [done|].
  apply andb_true_iff in H as [He H]. rewrite (IH _ H).
  by destruct e.
Qed.

Lemma forallb_take {A} (p : A -> bool) (n : nat) (l : list A) :
  forallb p l = true -> forallb p (take n l) = true.
Proof.
  revert n. induction l as [|x l IH]; intros [|n] H; simpl in *; try done.
  apply andb_true_iff in H as [Hx H]. by rewrite Hx, (IH n H).
Qed.

Lemma ok_success (r : Response) : ok r = Spec.success r.
Proof.
  unfold ok, Spec.success. f_equal.
  destruct (N.leb_spec (status r) 299), (N.ltb_spec (status r) 300); try done; lia.
Qed.

(** [handleApiCall] always runs to its end: nothing it does is thrown to
    its caller. *)
Lemma handleApiCall_returns
  (numberImage : list N -> list N) (network : Network)
  (endpoint : ApiEndpoint.t) (st : PanelState) :
  snd (handleApiCall numberImage network endpoint st) = Returned tt.
Proof.
  destruct (Spec.hasApiKey st) eqn:Hk.
  - destruct (Spec.anyRequiredMissing endpoint st) eqn:Hm.
    + by rewrite (submit_invalid _ _ _ _ Hk Hm).
    + by rewrite (submit_valid _ _ _ _ Hk Hm).
  - by rewrite (submit_without_key _ _ _ _ Hk).
Qed.

(** ** The built-ins on sample texts *)

Example parse_nested :
  JSON.parse (Js.dq "{'a': [1, -2.5e3, true, null, {}], 'b': {'c': 'd'}}")
  = Some (JSON.Object
            [(Js.str "a",
              JSON.Array [JSON.Number (Js.str "1"); JSON.Number (Js.str "-2.5e3");
                          JSON.Bool true; JSON.Null; JSON.Object []]);
             (Js.str "b", JSON.Object [(Js.str "c", JSON.String (Js.str "d"))])]).
Proof. reflexivity. Qed.

Example parse_rejects :
  map JSON.parse
    [Js.str "not json"; Js.str ""; Js.str "[1,]"; Js.dq "{'a':1,}"; Js.str "01";
     Js.str "1."; Js.str "nul"; Js.str "[1 2]"; Js.dq "{'a' 1}"; Js.dq "'open"]
  = [None; None; None; None; None; None; None; None; None; None].
Proof. reflexivity. Qed.

Example parse_key_order :
  JSON.parse (Js.dq "{'b':1,'10':2,'2':3,'b':4}")
  = Some (JSON.Object [(Js.str "2", JSON.Number (Js.str "3"));
                       (Js.str "10", JSON.Number (Js.str "2"));
                       (Js.str "b", JSON.Number (Js.str "4"))]).
Proof. reflexivity. Qed.

Example stringify_nested :
  JSON.stringify Samples.asWritten
    (JSON.Object [(Js.str "a", JSON.Array [JSON.Number (Js.str "1"); JSON.Array []]);
                  (Js.str "b", JSON.String [9; 34])])
  = Js.str "{" ++ [10]
    ++ Js.dq "  'a': [" ++ [10]
    ++ Js.str "    1," ++ [10]
    ++ Js.str "    []" ++ [10]
    ++ Js.str "  ]," ++ [10]
    ++ Js.dq "  'b': '" ++ [92; 116; 92; 34; 34] ++ [10]
    ++ Js.str "}".
Proof. reflexivity. Qed.

Example trim_blank :
  map Js.trim [Js.str "  key "; Js.str "   "; [9; 10; 160; 12288]; []]
  = [Js.str "key"; []; []; []].
Proof. reflexivity. Qed.

(** ** The form handlers *)

Lemma handleFormDataChange_lookup (name value key : list N) (st : PanelState) :
  formData (handleFormDataChange name value st) !! key
  = if decide (name = key) then Some value else formData st !! key.
Proof. unfold handleFormDataChange. simpl. apply lookup_insert. Qed.

Lemma handlePathParamChange_lookup (name value key : list N) (st : PanelState) :
  pathParams (handlePathParamChange name value st) !! key
  = if decide (name = key) then Some value else pathParams st !! key.
Proof. unfold handlePathParamChange. simpl. apply lookup_insert. Qed.

Lemma filterWithIndex_past {A : Type} (index k : nat) (l : list A) :
  (index < k)%nat ->
  filterWithIndex (fun _ i => negb (Nat.eqb i index)) k l = l.
Proof.
  revert k. induction l as [|x l IH]; intros k Hk; simpl; [done|].
  destruct (Nat.eqb_spec k index) as [->|_]; [lia|]. simpl.
  f_equal. apply IH. lia.
Qed.

Lemma filterWithIndex_remove {A : Type} (index k : nat) (l : list A) :
  (k <= index)%nat ->
  filterWithIndex (fun _ i => negb (Nat.eqb i index)) k l
  = take (index - k) l ++ drop (S (index - k)) l.
Proof.
  revert k. induction l as [|x l IH]; intros k Hk; simpl.
  - by rewrite take_nil.
  - destruct (Nat.eqb_spec k index) as [->|Hne]; simpl.
    + rewrite Nat.sub_diag. simpl. rewrite drop_0.
      apply filterWithIndex_past. lia.
    + replace (index - k)%nat with (S (index - S k)) by lia. simpl.
      f_equal. apply IH. lia.
Qed.

Lemma removeFile_files (index : nat) (st : PanelState) :
  selectedFiles (removeFile index st)
  = take index (selectedFiles st) ++ drop (S index) (selectedFiles st).
Proof.
  unfold removeFile. simpl. rewrite filterWithIndex_remove by lia.
  by rewrite Nat.sub_0_r.
Qed.

(** [removeFile] drops the file at the index and keeps the others in
    their order. *)
Lemma removeFile_lookup (index i : nat) (st : PanelState) :
  (index < length (selectedFiles st))%nat ->
  selectedFiles (removeFile index st) !! i
  = selectedFiles st !! (if decide (i < index)%nat then i else S i).
Proof.
  intros Hlt. rewrite removeFile_files. case_decide as Hi.
  - rewrite lookup_app_l by (rewrite length_take; lia).
    by rewrite lookup_take_lt.
  - rewrite lookup_app_r by (rewrite length_take; lia).
    rewrite length_take, lookup_drop. f_equal. lia.
Qed.

(** The page starts on the classification endpoint, with an empty form. *)
Example start_on_classify :
  Index.start Index.realEndpoints
  = Some {| Index.selectedEndpoint := Js.str "classify";
            Index.panel :=
              {| apiKey := []; selectedFiles := []; formData := ∅; pathParams := ∅;
                 response := []; responseStatus := None; isLoading := false;
                 error := [] |} |}.
Proof. reflexivity. Qed.

(** Mounted on the asynchronous extraction, the form holds the defaults
    of its fields. *)
Example mount_defaults :
  formData (mount Index.extractAsync) !! Js.str "query" = Some []
  /\ formData (mount Index.extractAsync) !! Js.str "tags" = Some (Js.str "[]").
Proof. split; reflexivity. Qed.

(** ** Validation *)

(** C1.  With an API key that is not blank, when some required input is
    missing (a required upload with no selected file, a required form
    field that is unset or blank once trimmed, a required path parameter
    that is unset or blank once trimmed), [handleApiCall] does one thing:
    it shows the validation error that lists the missing inputs, the files
    first (under the label [file(s)]), then the form fields, then the path
    parameters.  No request is sent and no state cell is set. *)
Theorem C1_missing_inputs_reported
  (numberImage : list N -> list N) (network : Network)
  (endpoint : ApiEndpoint.t) (st : PanelState) :
  Spec.hasApiKey st = true ->
  Spec.anyRequiredMissing endpoint st = true ->
  handleApiCall numberImage network endpoint st
  = ([Spec.validationError (Spec.requiredMissing endpoint st)], Returned tt)
  /\ missingFields endpoint st = Spec.requiredMissing endpoint st
  /\ Spec.requiredMissing endpoint st <> []
  /\ networkCalls (fst (handleApiCall numberImage network endpoint st)) = [].
Proof.
  intros Hk Hm. rewrite (submit_invalid _ _ _ _ Hk Hm).
  split; [reflexivity|]. split; [apply missingFields_spec|].
  split; [|reflexivity].
  intros Hnil. pose proof (requiredMissing_nonempty _ _ Hm) as Hlen.
  by rewrite Hnil in Hlen.
Qed.

Lemma C1_witness :
  Spec.hasApiKey Samples.keyOnly = true
  /\ Spec.anyRequiredMissing Index.extractAsync Samples.keyOnly = true
  /\ handleApiCall Samples.asWritten Samples.serverOk Index.extractAsync Samples.keyOnly
     = ([Spec.validationError [Js.str "file(s)"; Js.str "query"]], Returned tt).
Proof.
  split; [reflexivity|]. split; [reflexivity|].
  destruct (C1_missing_inputs_reported Samples.asWritten Samples.serverOk
              Index.extractAsync Samples.keyOnly) as [H _];
    [reflexivity|reflexivity|].
  exact H.
Defined.

(** C9.  With an API key that is empty or blank once trimmed,
    [handleApiCall] only asks for the key: whatever the endpoint and the
    form hold, no request is sent, no missing field is reported and the
    state is left as it was. *)
Theorem C9_blank_key_stops_first
  (numberImage : list N -> list N) (network : Network)
  (endpoint : ApiEndpoint.t) (st : PanelState) :
  Js.trim (apiKey st) = [] ->
  handleApiCall numberImage network endpoint st = ([Spec.apiKeyError], Returned tt)
  /\ networkCalls (fst (handleApiCall numberImage network endpoint st)) = []
  /\ ~ In (Spec.validationError (missingFields endpoint st))
          (fst (handleApiCall numberImage network endpoint st))
  /\ run st (fst (handleApiCall numberImage network endpoint st)) = st.
Proof.
  intros Hk.
  assert (Hno : Spec.hasApiKey st = false) by (unfold Spec.hasApiKey; by rewrite Hk).
  rewrite (submit_without_key _ _ _ _ Hno).
  split; [reflexivity|]. split; [reflexivity|]. split; [|reflexivity].
  simpl. intros [H|[]]. discriminate H.
Qed.

Lemma C9_witness :
  Js.trim (apiKey Samples.noKey) = []
  /\ Spec.anyRequiredMissing Index.extractAsync Samples.noKey = true
  /\ handleApiCall Samples.asWritten Samples.serverOk Index.extractAsync Samples.noKey
     = ([Spec.apiKeyError], Returned tt).
Proof.
  split; [reflexivity|]. split; [reflexivity|].
  destruct (C9_blank_key_stops_first Samples.asWritten Samples.serverOk
              Index.extractAsync Samples.noKey) as [H _]; [reflexivity|].
  exact H.
Defined.

(** C10.  When [handleApiCall] stops early, for want of an API key or
    because a required input is missing, its trace holds no setter: the
    response body, the status, the error message and [isLoading] are what
    they were.  When validation passes, the four cells are reset and the
    next thing the handler does is the network call. *)
Theorem C10_outcome_cleared_only_before_dispatch
  (numberImage : list N -> list N) (network : Network)
  (endpoint : ApiEndpoint.t) (st : PanelState) :
  (Spec.hasApiKey st = false \/ Spec.anyRequiredMissing endpoint st = true ->
   List.filter Spec.isSetter (fst (handleApiCall numberImage network endpoint st)) = []
   /\ response (run st (fst (handleApiCall numberImage network endpoint st))) = response st
   /\ responseStatus (run st (fst (handleApiCall numberImage network endpoint st)))
      = responseStatus st
   /\ error (run st (fst (handleApiCall numberImage network endpoint st))) = error st
   /\ isLoading (run st (fst (handleApiCall numberImage network endpoint st)))
      = isLoading st)
  /\ (Spec.hasApiKey st = true -> Spec.anyRequiredMissing endpoint st = false ->
      exists rest,
        fst (handleApiCall numberImage network endpoint st)
        = [setIsLoading true; setError []; setResponse []; setResponseStatus None;
           fetch (buildApiUrl endpoint st) (Spec.requestInit endpoint st)] ++ rest).
Proof.
  split.
  - intros H. destruct (Spec.hasApiKey st) eqn:Hk.
    + destruct H as [H|H]; [discriminate|].
      rewrite (submit_invalid _ _ _ _ Hk H). by repeat split.
    + rewrite (submit_without_key _ _ _ _ Hk). by repeat split.
  - intros Hk Hm. rewrite (submit_valid _ _ _ _ Hk Hm). simpl. eauto.
Qed.

Lemma C10_witness :
  Spec.anyRequiredMissing Index.extractAsync Samples.keyOnly = true
  /\ response (run Samples.keyOnly
                 (fst (handleApiCall Samples.asWritten Samples.serverOk
                         Index.extractAsync Samples.keyOnly)))
     = Js.str "previous body"
  /\ Spec.anyRequiredMissing Index.extractAsync Samples.ready = false
  /\ exists rest,
       fst (handleApiCall Samples.asWritten Samples.serverOk
              Index.extractAsync Samples.ready)
       = [setIsLoading true; setError []; setResponse []; setResponseStatus None;
          fetch (buildApiUrl Index.extractAsync Samples.ready)
                (Spec.requestInit Index.extractAsync Samples.ready)] ++ rest.
Proof.
  destruct (C10_outcome_cleared_only_before_dispatch Samples.asWritten Samples.serverOk
              Index.extractAsync Samples.keyOnly) as [Hearly _].
  destruct (C10_outcome_cleared_only_before_dispatch Samples.asWritten Samples.serverOk
              Index.extractAsync Samples.ready) as [_ Hvalid].
  split; [reflexivity|].
  split; [apply Hearly; right; reflexivity|].
  split; [reflexivity|].
  apply Hvalid; reflexivity.
Defined.

(** ** The loading flag *)

(** C3.  In a submission that passes validation, whatever the network
    does (a response in the 2xx range, any other response, a rejected
    [fetch], a rejected [text()]): the first effect sets [isLoading], the
    network call comes after it and is the only one, the last effect
    clears [isLoading], and the flag is set in every state between the
    first effect and the last. *)
Theorem C3_isLoading_set_then_cleared
  (numberImage : list N -> list N) (network : Network)
  (endpoint : ApiEndpoint.t) (st : PanelState) :
  Spec.hasApiKey st = true ->
  Spec.anyRequiredMissing endpoint st = false ->
  let trace := fst (handleApiCall numberImage network endpoint st) in
  head trace = Some (setIsLoading true)
  /\ trace !! 4%nat = Some (fetch (buildApiUrl endpoint st) (Spec.requestInit endpoint st))
  /\ networkCalls trace = [fetch (buildApiUrl endpoint st) (Spec.requestInit endpoint st)]
  /\ last trace = Some (setIsLoading false)
  /\ (forall n, (0 < n < length trace)%nat -> isLoading (run st (take n trace)) = true)
  /\ isLoading (run st trace) = false
  /\ snd (handleApiCall numberImage network endpoint st) = Returned tt.
Proof.
  intros Hk Hm trace. subst trace. rewrite (submit_valid _ _ _ _ Hk Hm).
  cbn [fst snd].
  set (call := fetch _ _). set (after := Spec.completion _ _).
  pose proof (completion_keeps_isLoading numberImage (Spec.exchange network endpoint st))
    as Hafter. fold after in Hafter.
  pose proof (completion_no_fetch numberImage (Spec.exchange network endpoint st))
    as Hnofetch. fold after in Hnofetch.
  split; [reflexivity|]. split; [reflexivity|].
  split.
  { unfold networkCalls in *. simpl. rewrite List.filter_app, Hnofetch. reflexivity. }
  split.
  { change (Spec.prelude ++ call :: after ++ [setIsLoading false])
      with ((Spec.prelude ++ call :: after) ++ [setIsLoading false]).
    apply last_snoc. }
  assert (Hmid : forallb (fun e => negb (Spec.setsIsLoading e))
                   ([setError []; setResponse []; setResponseStatus None; call] ++ after)
                 = true).
  { rewrite forallb_app, Hafter. reflexivity. }
  split.
  - intros n [Hpos Hlt]. destruct n as [|m]; [lia|].
    change (Spec.prelude ++ call :: after ++ [setIsLoading false])
      with (setIsLoading true
            :: (([setError []; setResponse []; setResponseStatus None; call] ++ after)
                ++ [setIsLoading false])) in *.
    simpl in Hlt. rewrite !length_app in Hlt. simpl in Hlt.
    rewrite firstn_cons. rewrite take_app_le by (simpl; lia).
    change (run st (setIsLoading true :: ?l)) with (run (apply st (setIsLoading true)) l).
    unfold run at 1. simpl fold_left.
    change (fold_left apply ?l ?s) with (run s l).
    rewrite run_keeps_isLoading; [reflexivity|].
    apply forallb_take. exact Hmid.
  - split; [|reflexivity].
    change (Spec.prelude ++ call :: after ++ [setIsLoading false])
      with ((Spec.prelude ++ call :: after) ++ [setIsLoading false]).
    unfold run. rewrite fold_left_app. reflexivity.
Qed.

Lemma C3_witness :
  Spec.hasApiKey Samples.ready = true
  /\ Spec.anyRequiredMissing Index.extractAsync Samples.ready = false
  /\ isLoading (run Samples.ready
                  (fst (handleApiCall Samples.asWritten Samples.unreachable
                          Index.extractAsync Samples.ready))) = false.
Proof.
  split; [reflexivity|]. split; [reflexivity|].
  destruct (C3_isLoading_set_then_cleared Samples.asWritten Samples.unreachable
              Index.extractAsync Samples.ready)
    as (_ & _ & _ & _ & _ & H & _); [reflexivity|reflexivity|].
  exact H.
Defined.

(** ** The outcome of a request *)

Lemma run_valid_response
  (numberImage : list N -> list N) (network : Network)
  (endpoint : ApiEndpoint.t) (st : PanelState) (r : Response) (responseText : list N) :
  Spec.hasApiKey st = true ->
  Spec.anyRequiredMissing endpoint st = false ->
  Spec.exchange network endpoint st = Returned r ->
  text r = Returned responseText ->
  run st (fst (handleApiCall numberImage network endpoint st))
  = {| apiKey := apiKey st; selectedFiles := selectedFiles st;
       formData := formData st; pathParams := pathParams st;
       response := Spec.bodyText numberImage responseText;
       responseStatus := Some (status r);
       isLoading := false;
       error := if Spec.success r then [] else Spec.httpSummary r |}.
Proof.
  intros Hk Hm Hx Ht. rewrite (submit_valid _ _ _ _ Hk Hm), Hx.
  unfold Spec.completion, Spec.responseTrace. rewrite Ht, <- ok_success.
  by destruct (ok r).
Qed.

Lemma run_valid_failure
  (numberImage : list N -> list N) (network : Network)
  (endpoint : ApiEndpoint.t) (st : PanelState) (e : Thrown) :
  Spec.hasApiKey st = true ->
  Spec.anyRequiredMissing endpoint st = false ->
  Spec.completion numberImage (Spec.exchange network endpoint st) = Spec.failureTrace e ->
  run st (fst (handleApiCall numberImage network endpoint st))
  = {| apiKey := apiKey st; selectedFiles := selectedFiles st;
       formData := formData st; pathParams := pathParams st;
       response := Js.str "Error: " ++ Spec.transportMessage e;
       responseStatus := None;
       isLoading := false;
       error := Spec.transportMessage e |}.
Proof.
  intros Hk Hm Hx. rewrite (submit_valid _ _ _ _ Hk Hm), Hx. reflexivity.
Qed.

(** C4, as the code has it.  For a request that is sent: a response is
    recorded with its status and its rendered body; with a status from 200
    to 299 the error message stays empty, with any other status it is
    [HTTP <status>: <statusText>].  When the call fails in transport (a
    rejected [fetch], or a body that cannot be read), no status is
    recorded, the error message is the message of the failure and the
    response body is that message after [Error: ]. *)
Theorem C4_outcome_classified
  (numberImage : list N -> list N) (network : Network)
  (endpoint : ApiEndpoint.t) (st : PanelState) :
  Spec.hasApiKey st = true ->
  Spec.anyRequiredMissing endpoint st = false ->
  let final := run st (fst (handleApiCall numberImage network endpoint st)) in
  match Spec.exchange network endpoint st with
  | Returned r =>
      match text r with
      | Returned responseText =>
          responseStatus final = Some (status r)
          /\ response final = Spec.bodyText numberImage responseText
          /\ error final = (if Spec.success r then [] else Spec.httpSummary r)
      | Threw e =>
          responseStatus final = None
          /\ response final = Js.str "Error: " ++ Spec.transportMessage e
          /\ error final = Spec.transportMessage e
      end
  | Threw e =>
      responseStatus final = None
      /\ response final = Js.str "Error: " ++ Spec.transportMessage e
      /\ error final = Spec.transportMessage e
  end.
Proof.
  intros Hk Hm final. subst final.
  destruct (Spec.exchange network endpoint st) as [r|e] eqn:Hx.
  - destruct (text r) as [t|e] eqn:Ht.
    + by rewrite (run_valid_response _ _ _ _ _ _ Hk Hm Hx Ht).
    + rewrite (run_valid_failure _ _ _ _ e Hk Hm); [done|].
      rewrite Hx. simpl. by rewrite Ht.
  - rewrite (run_valid_failure _ _ _ _ e Hk Hm); [done|]. by rewrite Hx.
Qed.

Lemma C4_witness :
  Spec.hasApiKey Samples.ready = true
  /\ Spec.anyRequiredMissing Index.extractAsync Samples.ready = false
  /\ responseStatus (run Samples.ready
                       (fst (handleApiCall Samples.asWritten Samples.serverNotFound
                               Index.extractAsync Samples.ready))) = Some 404
  /\ response (run Samples.ready
                 (fst (handleApiCall Samples.asWritten Samples.serverNotFound
                         Index.extractAsync Samples.ready)))
     = Js.str "{" ++ [10] ++ Js.dq "  'error': 'missing'" ++ [10] ++ Js.str "}"
  /\ error (run Samples.ready
              (fst (handleApiCall Samples.asWritten Samples.serverNotFound
                      Index.extractAsync Samples.ready)))
     = Js.str "HTTP 404: Not Found".
Proof.
  split; [reflexivity|]. split; [reflexivity|].
  exact (C4_outcome_classified Samples.asWritten Samples.serverNotFound
           Index.extractAsync Samples.ready eq_refl eq_refl).
Defined.

(** C4, as the specification has it, fails where no server is reached: the response
    body is not left empty, it holds the message after [Error: ]. *)
Lemma C4_transport_failure_fills_body :
  Spec.hasApiKey Samples.ready = true
  /\ Spec.anyRequiredMissing Index.extractAsync Samples.ready = false
  /\ Spec.exchange Samples.unreachable Index.extractAsync Samples.ready
     = Threw (ErrorInstance (Js.str "Failed to fetch"))
  /\ response (run Samples.ready
                 (fst (handleApiCall Samples.asWritten Samples.unreachable
                         Index.extractAsync Samples.ready)))
     = Js.str "Error: Failed to fetch"
  /\ ~ Spec.transportFailureAsSpecified (ErrorInstance (Js.str "Failed to fetch"))
         (run Samples.ready
            (fst (handleApiCall Samples.asWritten Samples.unreachable
                    Index.extractAsync Samples.ready))).
Proof.
  split; [reflexivity|]. split; [reflexivity|]. split; [reflexivity|].
  split; [reflexivity|].
  intros [_ H]. discriminate H.
Qed.

(** A 404 with the body [{"error":"missing"}]: the error message contains
    [404] and the body is shown pretty-printed. *)
Example not_found_is_reported :
  let final := run Samples.ready
                 (fst (handleApiCall Samples.asWritten Samples.serverNotFound
                         Index.extractAsync Samples.ready)) in
  Js.includes (error final) (Js.str "404") = true
  /\ response final
     = Js.str "{" ++ [10] ++ Js.dq "  'error': 'missing'" ++ [10] ++ Js.str "}".
Proof. split; reflexivity. Qed.

(** C5.  The body shown for a response text: when the text is JSON, the
    value it denotes printed by [JSON.stringify(value, null, 2)]; when it
    is not, the text itself.  The text [{"status":"ok"}] is shown on three
    lines, its one member indented by two spaces; the text [not json] is
    shown as it is. *)
Theorem C5_body_pretty_printed_or_raw
  (numberImage : list N -> list N) (network : Network)
  (endpoint : ApiEndpoint.t) (st : PanelState) (r : Response) (responseText : list N) :
  Spec.hasApiKey st = true ->
  Spec.anyRequiredMissing endpoint st = false ->
  Spec.exchange network endpoint st = Returned r ->
  text r = Returned responseText ->
  let final := run st (fst (handleApiCall numberImage network endpoint st)) in
  (forall v, JSON.parse responseText = Some v ->
             response final = JSON.stringify numberImage v)
  /\ (JSON.parse responseText = None -> response final = responseText)
  /\ (responseText = Js.dq "{'status':'ok'}" ->
      response final
      = Js.str "{" ++ [10] ++ Js.dq "  'status': 'ok'" ++ [10] ++ Js.str "}")
  /\ (responseText = Js.str "not json" -> response final = Js.str "not json").
Proof.
  intros Hk Hm Hx Ht final. subst final.
  rewrite (run_valid_response _ _ _ _ _ _ Hk Hm Hx Ht). cbn [response].
  unfold Spec.bodyText.
  split; [intros v Hv; by rewrite Hv|].
  split; [intros Hv; by rewrite Hv|].
  split; intros ->; reflexivity.
Qed.

Lemma C5_witness :
  Spec.hasApiKey Samples.ready = true
  /\ Spec.anyRequiredMissing Index.extractAsync Samples.ready = false
  /\ JSON.parse (Js.dq "{'status':'ok'}")
     = Some (JSON.Object [(Js.str "status", JSON.String (Js.str "ok"))])
  /\ response (run Samples.ready
                 (fst (handleApiCall Samples.asWritten Samples.serverOk
                         Index.extractAsync Samples.ready)))
     = Js.str "{" ++ [10] ++ Js.dq "  'status': 'ok'" ++ [10] ++ Js.str "}".
Proof.
  split; [reflexivity|]. split; [reflexivity|]. split; [reflexivity|].
  destruct (C5_body_pretty_printed_or_raw Samples.asWritten Samples.serverOk
              Index.extractAsync Samples.ready
              {| status := 200; statusText := Js.str "OK";
                 text := Returned (Js.dq "{'status':'ok'}") |}
              (Js.dq "{'status':'ok'}") eq_refl eq_refl eq_refl eq_refl)
    as (_ & _ & H & _).
  apply H. reflexivity.
Defined.

(** ** Selecting an endpoint *)

(** C2, as the specification has it, fails: after a classification, selecting the
    asynchronous extraction leaves the chosen file, the response and its
    status where they were, and [tags] has no value where its default was
    expected. *)
Lemma C2_selection_resets_nothing :
  Index.currentEndpoint Index.realEndpoints
    (Index.selectedEndpoint
       (Index.setSelectedEndpoint (Js.str "extract-async") Samples.afterClassify))
  = Some Index.extractAsync
  /\ selectedFiles
       (Index.panel (Index.setSelectedEndpoint (Js.str "extract-async") Samples.afterClassify))
     = [Samples.fileA]
  /\ responseStatus
       (Index.panel (Index.setSelectedEndpoint (Js.str "extract-async") Samples.afterClassify))
     = Some 200
  /\ formData
       (Index.panel (Index.setSelectedEndpoint (Js.str "extract-async") Samples.afterClassify))
     !! Js.str "tags" = None
  /\ ~ Spec.resetOnSwitch Index.extractAsync
         (Index.panel Samples.afterClassify)
         (Index.panel (Index.setSelectedEndpoint (Js.str "extract-async") Samples.afterClassify)).
Proof.
  split; [reflexivity|]. split; [reflexivity|]. split; [reflexivity|].
  split; [reflexivity|].
  intros (_ & H & _). discriminate H.
Qed.

(** C2, as the code has it.  Selecting an endpoint sets the id the page
    holds, and with it the endpoint handed to the panel; the panel's API
    key, its selected files, its response body, status and error message
    are what they were before. *)
Theorem C2_selection_keeps_panel_state (endpointId : list N) (app : Index.App) :
  Index.selectedEndpoint (Index.setSelectedEndpoint endpointId app) = endpointId
  /\ (forall ep, In ep Index.realEndpoints ->
        Index.currentEndpoint Index.realEndpoints
          (Index.selectedEndpoint (Index.setSelectedEndpoint (ApiEndpoint.id ep) app))
        = Some ep)
  /\ apiKey (Index.panel (Index.setSelectedEndpoint endpointId app))
     = apiKey (Index.panel app)
  /\ selectedFiles (Index.panel (Index.setSelectedEndpoint endpointId app))
     = selectedFiles (Index.panel app)
  /\ response (Index.panel (Index.setSelectedEndpoint endpointId app))
     = response (Index.panel app)
  /\ responseStatus (Index.panel (Index.setSelectedEndpoint endpointId app))
     = responseStatus (Index.panel app)
  /\ error (Index.panel (Index.setSelectedEndpoint endpointId app))
     = error (Index.panel app).
Proof.
  split; [reflexivity|]. split; [|by repeat split].
  intros ep Hin. simpl in Hin.
  destruct Hin as [<-|[<-|[<-|[<-|[]]]]]; reflexivity.
Qed.

Lemma C2_witness :
  In Index.trace Index.realEndpoints
  /\ Index.currentEndpoint Index.realEndpoints
       (Index.selectedEndpoint
          (Index.setSelectedEndpoint (ApiEndpoint.id Index.trace) Samples.afterClassify))
     = Some Index.trace.
Proof.
  assert (Hin : In Index.trace Index.realEndpoints) by (simpl; tauto).
  split; [exact Hin|].
  destruct (C2_selection_keeps_panel_state (Js.str "trace") Samples.afterClassify)
    as (_ & H & _).
  exact (H Index.trace Hin).
Defined.

(** ** The multipart body *)

Lemma fold_left_append {A B : Type} (g : A -> B) (l : list A) (acc : list B) :
  fold_left (fun acc x => acc ++ [g x]) l acc = acc ++ map g l.
Proof.
  revert acc. induction l as [|x l IH]; intros acc; simpl.
  - by rewrite app_nil_r.
  - by rewrite IH, <- app_assoc.
Qed.

Lemma fold_left_fields (m : gmap (list N) (list N)) (l : list FormField.t)
  (acc : FormData) :
  fold_left
    (fun body field =>
       match m !! FormField.name field with
       | Some value => body ++ [(FormField.name field, StringValue value)]
       | None => body
       end) l acc
  = acc ++ omap (fun field =>
                   match m !! FormField.name field with
                   | Some value => Some (FormField.name field, StringValue value)
                   | None => None
                   end) l.
Proof.
  revert acc. induction l as [|x l IH]; intros acc; simpl.
  - by rewrite app_nil_r.
  - rewrite IH. destruct (m !! FormField.name x); simpl; [|done].
    by rewrite <- app_assoc.
Qed.

Lemma buildBody_multipart (endpoint : ApiEndpoint.t) (st : PanelState) :
  Spec.multipart endpoint = true ->
  buildBody endpoint st = Some (Spec.fileEntries endpoint st ++ Spec.fieldEntries endpoint st).
Proof.
  unfold Spec.multipart, buildBody, Spec.fileEntries, Spec.fieldEntries,
    Spec.declaredFields, forEach.
  intros H. apply andb_true_iff in H as [Hmethod Htype]. rewrite Htype.
  assert (Hfiles :
    match ApiEndpoint.fileUpload endpoint with
    | Some u =>
        fold_left (fun body file => body ++ [(FileUpload.name u, FileValue file)])
          (selectedFiles st) ([] : FormData)
    | None => []
    end
    = match ApiEndpoint.fileUpload endpoint with
      | Some u => map (fun file => (FileUpload.name u, FileValue file)) (selectedFiles st)
      | None => []
      end).
  { destruct (ApiEndpoint.fileUpload endpoint) as [u|]; [|done].
    by rewrite (fold_left_append (fun file => (FileUpload.name u, FileValue file))). }
  rewrite Hfiles. clear Hfiles.
  assert (Hfields : forall acc : FormData,
    match ApiEndpoint.formFields endpoint with
    | Some l =>
        fold_left
          (fun body field =>
             match formData st !! FormField.name field with
             | Some value => body ++ [(FormField.name field, StringValue value)]
             | None => body
             end) l acc
    | None => acc
    end
    = acc ++ omap (fun field =>
                     match formData st !! FormField.name field with
                     | Some value => Some (FormField.name field, StringValue value)
                     | None => None
                     end) (default [] (ApiEndpoint.formFields endpoint))).
  { intros acc. destruct (ApiEndpoint.formFields endpoint) as [l|]; simpl.
    - apply fold_left_fields.
    - by rewrite app_nil_r. }
  destruct (ApiEndpoint.method endpoint); try discriminate Hmethod;
    by rewrite Hfields.
Qed.

(** When every declared field has a value, the entries of the fields are
    those of the specification. *)
Lemma fieldEntries_all_set (endpoint : ApiEndpoint.t) (st : PanelState) :
  (forall field, In field (Spec.declaredFields endpoint) ->
     is_Some (formData st !! FormField.name field)) ->
  Spec.fieldEntries endpoint st = Spec.fieldEntriesWithFallback endpoint st.
Proof.
  unfold Spec.fieldEntries, Spec.fieldEntriesWithFallback.
  induction (Spec.declaredFields endpoint) as [|x l IH]; intros H; simpl; [done|].
  destruct (H x) as [v Hv]; [by left|]. rewrite Hv. simpl.
  f_equal. apply IH. intros field Hin. apply H. by right.
Qed.

(** C7, as the specification has it, fails: a declared field that was never given a
    value gets no entry, where an entry with the empty string was
    expected. *)
Lemma C7_unset_field_is_left_out :
  Spec.multipart Index.extractAsync = true
  /\ formData Samples.ready !! Js.str "tags" = None
  /\ buildBody Index.extractAsync Samples.ready
     = Some [(Js.str "files", FileValue Samples.fileA);
             (Js.str "query", StringValue (Js.str "total amount"))]
  /\ Spec.bodyAsSpecified Index.extractAsync Samples.ready
     = [(Js.str "files", FileValue Samples.fileA);
        (Js.str "query", StringValue (Js.str "total amount"));
        (Js.str "tags", StringValue [])]
  /\ buildBody Index.extractAsync Samples.ready
     <> Some (Spec.bodyAsSpecified Index.extractAsync Samples.ready).
Proof.
  split; [reflexivity|]. split; [reflexivity|]. split; [reflexivity|].
  split; [reflexivity|].
  intros H. discriminate H.
Qed.

(** C7, as the code has it.  For a non-GET endpoint whose body type is
    multipart/form-data, the body holds one entry per selected file under
    the name of the endpoint's file upload, in the order of selection
    (none when the endpoint declares no upload), then one entry per
    declared form field that has a value, under the name of the field and
    with that value; a field without a value has no entry.  When every
    declared field has a value, this is the body of the specification. *)
Theorem C7_multipart_body (endpoint : ApiEndpoint.t) (st : PanelState) :
  Spec.multipart endpoint = true ->
  buildBody endpoint st = Some (Spec.fileEntries endpoint st ++ Spec.fieldEntries endpoint st)
  /\ ((forall field, In field (Spec.declaredFields endpoint) ->
         is_Some (formData st !! FormField.name field)) ->
      buildBody endpoint st = Some (Spec.bodyAsSpecified endpoint st)).
Proof.
  intros H. rewrite (buildBody_multipart _ _ H). split; [reflexivity|].
  intros Hset. unfold Spec.bodyAsSpecified. by rewrite (fieldEntries_all_set _ _ Hset).
Qed.

Lemma C7_witness :
  Spec.multipart Index.extractAsync = true
  /\ buildBody Index.extractAsync Samples.ready
     = Some (Spec.fileEntries Index.extractAsync Samples.ready
             ++ Spec.fieldEntries Index.extractAsync Samples.ready).
Proof.
  split; [reflexivity|].
  destruct (C7_multipart_body Index.extractAsync Samples.ready) as [H _];
    [reflexivity|exact H].
Defined.

(** ** Selecting files *)

(** C8.  On an endpoint whose upload does not allow several files, a
    selection replaces the list by the first file of the selection, so
    selecting [A, B] leaves [A]; on an endpoint whose upload allows
    several, a selection is appended to the list, so selecting [A] and
    then [B] from an empty list leaves [A, B]. *)
Theorem C8_file_selection
  (endpoint : ApiEndpoint.t) (st : PanelState) (files : list File) (A B : File) :
  (Spec.allowsMultiple endpoint = false ->
   selectedFiles (handleFileSelect endpoint files st) = take 1 files
   /\ selectedFiles (handleFileSelect endpoint [A; B] st) = [A])
  /\ (Spec.allowsMultiple endpoint = true ->
      selectedFiles (handleFileSelect endpoint files st) = selectedFiles st ++ files
      /\ selectedFiles (handleFileSelect endpoint [B] (handleFileSelect endpoint [A] st))
         = selectedFiles st ++ [A; B]
      /\ (selectedFiles st = [] ->
          selectedFiles (handleFileSelect endpoint [B] (handleFileSelect endpoint [A] st))
          = [A; B])).
Proof.
  unfold Spec.allowsMultiple, handleFileSelect. split; intros H; rewrite H; simpl.
  - done.
  - split; [done|]. rewrite <- app_assoc. split; [done|]. by intros ->.
Qed.

Lemma C8_witness :
  Spec.allowsMultiple Index.classify = false
  /\ selectedFiles (handleFileSelect Index.classify [Samples.fileA; Samples.fileB]
                      Samples.classifyReady)
     = [Samples.fileA]
  /\ Spec.allowsMultiple Index.extractAsync = true
  /\ selectedFiles (handleFileSelect Index.extractAsync [Samples.fileB]
                      (handleFileSelect Index.extractAsync [Samples.fileA] Samples.keyOnly))
     = [Samples.fileA; Samples.fileB].
Proof.
  destruct (C8_file_selection Index.classify Samples.classifyReady []
              Samples.fileA Samples.fileB) as [Hsingle _].
  destruct (C8_file_selection Index.extractAsync Samples.keyOnly []
              Samples.fileA Samples.fileB) as [_ Hmulti].
  split; [reflexivity|].
  split; [apply Hsingle; reflexivity|].
  split; [reflexivity|].
  apply Hmulti; reflexivity.
Defined.

(** ** The URL *)

Lemma startsWith_sound (prefix s : list N) :
  Js.startsWith s prefix = true -> s = prefix ++ drop (length prefix) s.
Proof.
  revert s. induction prefix as [|p prefix IH]; intros s H; simpl in *; [done|].
  destruct s as [|c s]; [discriminate|].
  apply andb_true_iff in H as [Hc H]. apply N.eqb_eq in Hc. subst c.
  simpl. f_equal. by apply IH.
Qed.

Lemma splitAtFirst_cons (search : list N) (c : N) (s : list N) :
  Js.splitAtFirst search (c :: s)
  = if Js.startsWith (c :: s) search then Some ([], drop (length search) (c :: s))
    else match Js.splitAtFirst search s with
         | Some (before, after) => Some (c :: before, after)
         | None => None
         end.
Proof. reflexivity. Qed.

(** [splitAtFirst] cuts the text around an occurrence of what is sought. *)
Lemma splitAtFirst_sound (search s before after : list N) :
  Js.splitAtFirst search s = Some (before, after) ->
  s = before ++ search ++ after.
Proof.
  revert before. induction s as [|c s IH]; intros before.
  - destruct search as [|p search]; simpl; [|discriminate].
    by intros [= <- <-].
  - rewrite splitAtFirst_cons.
    destruct (Js.startsWith (c :: s) search) eqn:Hs.
    + intros [= <- <-]. by apply startsWith_sound in Hs.
    + destruct (Js.splitAtFirst search s) as [[b a]|]; [|discriminate].
      intros [= <- <-]. simpl. f_equal. by apply IH.
Qed.

(** A replacement text without a dollar sign stands for itself. *)
Lemma getSubstitution_plain (matched before after template : list N) :
  ~ In 36 template ->
  Js.getSubstitution matched before after template = template.
Proof.
  induction template as [|c rest IH]; intros H; simpl; [done|].
  destruct (N.eqb_spec c 36) as [->|Hc].
  - exfalso. apply H. by left.
  - f_equal. apply IH. intros Hin. apply H. by right.
Qed.

Lemma replace_plain (s search value before after : list N) :
  Js.splitAtFirst search s = Some (before, after) ->
  ~ In 36 value ->
  Js.replace s search value = before ++ value ++ after.
Proof.
  intros Hs Hv. unfold Js.replace. by rewrite Hs, getSubstitution_plain.
Qed.

(** An endpoint none of whose parameters has a value: the path is sent
    as it is written, placeholders included. *)
Lemma buildApiUrl_no_value (endpoint : ApiEndpoint.t) (st : PanelState) :
  (forall param, In param (Spec.declaredParameters endpoint) ->
     lookupTruthy (pathParams st) (ApiParameter.name param) = false) ->
  buildApiUrl endpoint st
  = Js.str "https://kong-uat-proxy.hachiai.com/quest" ++ ApiEndpoint.path endpoint.
Proof.
  unfold buildApiUrl, Spec.declaredParameters, forEach.
  generalize (Js.str "https://kong-uat-proxy.hachiai.com/quest" ++ ApiEndpoint.path endpoint).
  destruct (ApiEndpoint.parameters endpoint) as [params|]; [|done].
  intros url H. simpl in H. revert url.
  induction params as [|param params IH]; intros url; cbn [fold_left]; [done|].
  rewrite (H param) by (by left). rewrite andb_false_r.
  apply IH. intros p Hp. apply H. by right.
Qed.

(** The status endpoint of the catalog with a trace id that holds no
    dollar sign: the id takes the place of the placeholder. *)
Lemma buildApiUrl_trace_plain (st : PanelState) (traceId : list N) :
  pathParams st !! Js.str "trace_id" = Some traceId ->
  traceId <> [] ->
  ~ In 36 traceId ->
  buildApiUrl Index.trace st
  = Spec.urlAsSpecified (Js.str "/v1/trace_id/") traceId [].
Proof.
  intros Hv Hne Hplain. unfold buildApiUrl, forEach, lookupTruthy.
  cbn [Index.trace ApiEndpoint.parameters ApiEndpoint.path fold_left
       ApiParameter.in_ ApiParameter.name].
  rewrite Hv.
  replace (strictEq (Some (Js.str "path")) (Js.str "path")) with true by reflexivity.
  destruct traceId as [|c traceId]; [done|].
  cbn [Js.truthy andb default from_option id].
  erewrite replace_plain; [|vm_compute; reflexivity|exact Hplain].
  unfold Spec.urlAsSpecified. rewrite app_assoc. reflexivity.
Qed.

(** The example of the specification: the trace id [abc123]. *)
Example buildApiUrl_abc123 :
  buildApiUrl Index.trace (Samples.tracing (Js.str "abc123"))
  = Js.str "https://kong-uat-proxy.hachiai.com/quest/v1/trace_id/abc123".
Proof. reflexivity. Qed.

(** Only the first occurrence of a placeholder is replaced. *)
Example buildApiUrl_second_occurrence :
  buildApiUrl Samples.compare (Samples.tracing (Js.str "abc123"))
  = Js.str "https://kong-uat-proxy.hachiai.com/quest/v1/trace_id/abc123/diff/{trace_id}".
Proof. reflexivity. Qed.

(** C6.  With the trace id [$&] the URL of the status endpoint is not the
    path with the id in the place of the placeholder: [replace] reads
    [$&] as the matched text, and the placeholder is back in the URL. *)
Theorem C6_dollar_sequence_in_value :
  buildApiUrl Index.trace (Samples.tracing (Js.str "$&"))
  = Js.str "https://kong-uat-proxy.hachiai.com/quest/v1/trace_id/{trace_id}"
  /\ Spec.urlAsSpecified (Js.str "/v1/trace_id/") (Js.str "$&") []
     = Js.str "https://kong-uat-proxy.hachiai.com/quest/v1/trace_id/$&"
  /\ buildApiUrl Index.trace (Samples.tracing (Js.str "$&"))
     <> Spec.urlAsSpecified (Js.str "/v1/trace_id/") (Js.str "$&") [].
Proof.
  split; [reflexivity|]. split; [reflexivity|].
  intros H. vm_compute in H. discriminate H.
Qed.

(** * Further properties of the panel and of the page *)

Lemma Js_eqb_eq (s t : list N) : Js.eqb s t = true <-> s = t.
Proof.
  revert t. induction s as [|a s IH]; intros [|b t]; simpl; split; try done.
  - intros H. apply andb_true_iff in H as [Hab H]. apply N.eqb_eq in Hab.
    apply IH in H. by subst.
  - intros [= -> ->]. apply andb_true_iff. split; [apply N.eqb_refl|by apply IH].
Qed.

Lemma Js_eqb_refl (s : list N) : Js.eqb s s = true.
Proof. by apply Js_eqb_eq. Qed.

Lemma Js_eqb_neq (s t : list N) : Js.eqb s t = false <-> s <> t.
Proof.
  split.
  - intros H Heq. apply Js_eqb_eq in Heq. congruence.
  - intros H. destruct (Js.eqb s t) eqn:E; [|done]. by apply Js_eqb_eq in E.
Qed.

(** ** Files *)

(** X1.  [removeFile] takes out the file at the index and nothing else:
    the files before it and the files after it stay, in their order, and
    the other cells of the state are untouched.  With an index past the
    end of the list the state is the same as before. *)
Theorem removeFile_takes_one_out (index : nat) (st : PanelState) :
  selectedFiles (removeFile index st)
  = take index (selectedFiles st) ++ drop (S index) (selectedFiles st)
  /\ (apiKey (removeFile index st) = apiKey st
      /\ formData (removeFile index st) = formData st
      /\ pathParams (removeFile index st) = pathParams st
      /\ response (removeFile index st) = response st
      /\ responseStatus (removeFile index st) = responseStatus st
      /\ error (removeFile index st) = error st
      /\ isLoading (removeFile index st) = isLoading st)
  /\ ((index < length (selectedFiles st))%nat ->
      S (length (selectedFiles (removeFile index st))) = length (selectedFiles st)
      /\ forall i,
           selectedFiles (removeFile index st) !! i
           = selectedFiles st !! (if decide (i < index)%nat then i else S i))
  /\ ((length (selectedFiles st) <= index)%nat -> removeFile index st = st).
Proof.
  split; [apply removeFile_files|]. split; [by repeat split|]. split.
  - intros Hlt. split; [|intros i; by apply removeFile_lookup].
    rewrite removeFile_files, length_app, length_take, length_drop. lia.
  - intros Hge. destruct st as [k files fd pp r rs l e]. unfold removeFile. simpl in *.
    f_equal. rewrite filterWithIndex_remove by lia.
    rewrite Nat.sub_0_r, take_ge, drop_ge by lia. apply app_nil_r.
Qed.

Lemma removeFile_takes_one_out_witness :
  (1 < length [Samples.fileA; Samples.fileB; Samples.fileA])%nat
  /\ selectedFiles
       (removeFile 1
          {| apiKey := []; selectedFiles := [Samples.fileA; Samples.fileB; Samples.fileA];
             formData := ∅; pathParams := ∅; response := []; responseStatus := None;
             isLoading := false; error := [] |})
     = [Samples.fileA; Samples.fileA].
Proof.
  split; [simpl; lia|].
  destruct (removeFile_takes_one_out 1
              {| apiKey := []; selectedFiles := [Samples.fileA; Samples.fileB; Samples.fileA];
                 formData := ∅; pathParams := ∅; response := []; responseStatus := None;
                 isLoading := false; error := [] |}) as [H _].
  exact H.
Defined.

(** X2.  On an endpoint that allows several files, selecting one more
    file and removing the file at the last position gives back the state
    from before the selection. *)
Theorem select_then_remove_last
  (endpoint : ApiEndpoint.t) (st : PanelState) (f : File) :
  Spec.allowsMultiple endpoint = true ->
  removeFile (length (selectedFiles st)) (handleFileSelect endpoint [f] st) = st.
Proof.
  intros Hm. destruct st as [k files fd pp r rs l e].
  unfold removeFile, handleFileSelect. unfold Spec.allowsMultiple in Hm.
  rewrite Hm. simpl. f_equal.
  rewrite filterWithIndex_remove by lia.
  rewrite Nat.sub_0_r, take_app_length.
  rewrite drop_ge by (rewrite length_app; simpl; lia). apply app_nil_r.
Qed.

Lemma select_then_remove_last_witness :
  Spec.allowsMultiple Index.extractAsync = true
  /\ removeFile (length (selectedFiles Samples.ready))
       (handleFileSelect Index.extractAsync [Samples.fileB] Samples.ready)
     = Samples.ready.
Proof.
  split; [reflexivity|].
  apply (select_then_remove_last Index.extractAsync Samples.ready Samples.fileB).
  reflexivity.
Defined.

(** X3.  Whatever the endpoint allows, a selection that holds a file
    satisfies a required upload; an empty selection on an endpoint that
    takes one file empties the list, and a required upload is missing
    again. *)
Theorem selection_and_required_upload
  (endpoint : ApiEndpoint.t) (st : PanelState) (files : list File) :
  (files <> [] -> Spec.fileMissing endpoint (handleFileSelect endpoint files st) = false)
  /\ (Spec.allowsMultiple endpoint = false ->
      selectedFiles (handleFileSelect endpoint [] st) = []
      /\ Spec.fileMissing endpoint (handleFileSelect endpoint [] st)
         = Spec.fileRequired endpoint)
  /\ (Spec.allowsMultiple endpoint = true ->
      handleFileSelect endpoint [] st = st).
Proof.
  unfold Spec.fileMissing, Spec.allowsMultiple, handleFileSelect. split; [|split].
  - intros Hne. destruct files as [|f files]; [done|].
    destruct (match ApiEndpoint.fileUpload endpoint with
              | Some u => FileUpload.multiple u | None => false end); simpl.
    + rewrite length_app. simpl.
      replace (length (selectedFiles st) + S (length files) =? 0)%nat with false
        by (symmetry; apply Nat.eqb_neq; lia).
      apply andb_false_r.
    + apply andb_false_r.
  - intros ->. simpl. split; [done|]. apply andb_true_r.
  - intros ->. destruct st. simpl. by rewrite app_nil_r.
Qed.

Lemma selection_and_required_upload_witness :
  [Samples.fileA] <> []
  /\ Spec.fileMissing Index.classify
       (handleFileSelect Index.classify [Samples.fileA] Samples.keyOnly) = false
  /\ Spec.allowsMultiple Index.classify = false
  /\ Spec.fileMissing Index.classify
       (handleFileSelect Index.classify [] Samples.classifyReady) = true.
Proof.
  destruct (selection_and_required_upload Index.classify Samples.keyOnly [Samples.fileA])
    as (Hsome & _ & _).
  destruct (selection_and_required_upload Index.classify Samples.classifyReady [])
    as (_ & Hnone & _).
  split; [discriminate|]. split; [apply Hsome; discriminate|].
  split; [reflexivity|].
  destruct Hnone as [_ H]; [reflexivity|]. exact H.
Defined.

(** ** The body of the request *)

(** X4.  A request has a body exactly when its endpoint is not a GET and
    has the body type multipart/form-data: a GET endpoint, an endpoint
    without a body type and an endpoint of any other body type are sent
    without a body, whatever files and fields the form holds. *)
Theorem body_only_for_multipart (endpoint : ApiEndpoint.t) (st : PanelState) :
  (buildBody endpoint st = None <-> Spec.multipart endpoint = false)
  /\ (ApiEndpoint.method endpoint = GET -> buildBody endpoint st = None)
  /\ (ApiEndpoint.requestBodyType endpoint <> Some (Js.str "multipart/form-data") ->
      buildBody endpoint st = None).
Proof.
  assert (Hiff : buildBody endpoint st = None <-> Spec.multipart endpoint = false).
  { destruct (Spec.multipart endpoint) eqn:Hm.
    - rewrite (buildBody_multipart _ _ Hm). split; discriminate.
    - split; [done|]. intros _. unfold Spec.multipart in Hm. unfold buildBody.
      destruct (ApiEndpoint.method endpoint); simpl in Hm; try done; by rewrite Hm. }
  split; [exact Hiff|]. split.
  - intros Hget. apply Hiff. unfold Spec.multipart. by rewrite Hget.
  - intros Hty. apply Hiff. unfold Spec.multipart.
    replace (strictEq (ApiEndpoint.requestBodyType endpoint) (Js.str "multipart/form-data"))
      with false; [apply andb_false_r|].
    symmetry. unfold strictEq.
    destruct (ApiEndpoint.requestBodyType endpoint) as [t|]; [|done].
    apply Js_eqb_neq. intros ->. by apply Hty.
Qed.

Lemma body_only_for_multipart_witness :
  ApiEndpoint.method Index.trace = GET
  /\ buildBody Index.trace Samples.ready = None.
Proof.
  split; [reflexivity|].
  destruct (body_only_for_multipart Index.trace Samples.ready) as (_ & H & _).
  apply H. reflexivity.
Defined.

(** ** Submissions *)

Lemma run_app (st : PanelState) (t1 t2 : list Effect) :
  run st (t1 ++ t2) = run (run st t1) t2.
Proof. unfold run. apply fold_left_app. Qed.

(** No effect of a trace touches the form inputs. *)
Lemma run_inputs (trace : list Effect) (st : PanelState) :
  Spec.sameInputs st (run st trace).
Proof.
  unfold run. revert st. induction trace as [|e trace IH]; intros st; simpl.
  - by repeat split.
  - destruct (IH (apply st e)) as (H1 & H2 & H3 & H4).
    unfold Spec.sameInputs. rewrite <- H1, <- H2, <- H3, <- H4. by destruct e.
Qed.

(** [handleApiCall] reads the form inputs and nothing else. *)
Lemma handleApiCall_inputs
  (numberImage : list N -> list N) (network : Network)
  (endpoint : ApiEndpoint.t) (st1 st2 : PanelState) :
  Spec.sameInputs st1 st2 ->
  handleApiCall numberImage network endpoint st1
  = handleApiCall numberImage network endpoint st2.
Proof.
  destruct st1, st2. unfold Spec.sameInputs. simpl.
  intros (-> & -> & -> & ->). reflexivity.
Qed.

Lemma completion_one_toast (numberImage : list N -> list N) (o : Outcome Response) :
  length (List.filter Spec.isToast (Spec.completion numberImage o)) = 1%nat.
Proof.
  destruct o as [r|e]; simpl; [|reflexivity].
  destruct (text r); simpl; [|reflexivity].
  unfold Spec.responseTrace. by destruct (ok r).
Qed.

(** X5.  Whatever the form holds and whatever the network does,
    [handleApiCall] runs to its end without throwing, shows one toast and
    one only, and calls the network at most once; it calls it not at all
    exactly when the API key is blank or a required input is missing. *)
Theorem submission_notifies_once
  (numberImage : list N -> list N) (network : Network)
  (endpoint : ApiEndpoint.t) (st : PanelState) :
  snd (handleApiCall numberImage network endpoint st) = Returned tt
  /\ length (List.filter Spec.isToast (fst (handleApiCall numberImage network endpoint st)))
     = 1%nat
  /\ (length (networkCalls (fst (handleApiCall numberImage network endpoint st))) <= 1)%nat
  /\ (networkCalls (fst (handleApiCall numberImage network endpoint st)) = []
      <-> Spec.hasApiKey st = false \/ Spec.anyRequiredMissing endpoint st = true).
Proof.
  split; [apply handleApiCall_returns|].
  destruct (Spec.hasApiKey st) eqn:Hk.
  - destruct (Spec.anyRequiredMissing endpoint st) eqn:Hm.
    + rewrite (submit_invalid _ _ _ _ Hk Hm). simpl.
      split; [done|]. split; [lia|]. split; [by right|done].
    + rewrite (submit_valid _ _ _ _ Hk Hm). cbn [fst].
      unfold networkCalls.
      change (Spec.prelude ++ ?c :: ?l ++ ?z) with (Spec.prelude ++ [c] ++ l ++ z).
      rewrite !List.filter_app, !length_app.
      rewrite completion_one_toast.
      pose proof (completion_no_fetch numberImage (Spec.exchange network endpoint st)) as Hnf.
      unfold networkCalls in Hnf. rewrite Hnf. simpl.
      split; [done|]. split; [lia|]. split; [discriminate|]. by intros [H|H].
  - rewrite (submit_without_key _ _ _ _ Hk). simpl.
    split; [done|]. split; [lia|]. split; [by left|done].
Qed.

Lemma submission_notifies_once_witness :
  Spec.hasApiKey Samples.noKey = false
  /\ networkCalls (fst (handleApiCall Samples.asWritten Samples.serverOk
                          Index.classify Samples.noKey)) = [].
Proof.
  split; [reflexivity|].
  destruct (submission_notifies_once Samples.asWritten Samples.serverOk
              Index.classify Samples.noKey) as (_ & _ & _ & H).
  apply H. left. reflexivity.
Defined.

(** States that agree on the four cells a trace may set agree on them
    after the trace. *)
Lemma run_prelude_forgets (st1 st2 : PanelState) (rest : list Effect) :
  Spec.sameInputs st1 st2 ->
  run st1 (Spec.prelude ++ rest) = run st2 (Spec.prelude ++ rest).
Proof.
  intros (H1 & H2 & H3 & H4). rewrite !run_app. f_equal.
  destruct st1, st2. simpl in *. subst. reflexivity.
Qed.

(** X7.  The outcome of a submission replaces the previous one and is
    never merged with it: two states with the same form inputs give the
    same trace, and when the request is sent they end in the same state,
    whatever response, status, error message and loading flag they held
    before.  Hence submitting again, with the network answering the same,
    changes nothing. *)
Theorem outcome_replaces_previous
  (numberImage : list N -> list N) (network : Network)
  (endpoint : ApiEndpoint.t) (st1 st2 : PanelState) :
  Spec.sameInputs st1 st2 ->
  Spec.hasApiKey st1 = true ->
  Spec.anyRequiredMissing endpoint st1 = false ->
  handleApiCall numberImage network endpoint st1
  = handleApiCall numberImage network endpoint st2
  /\ run st1 (fst (handleApiCall numberImage network endpoint st1))
     = run st2 (fst (handleApiCall numberImage network endpoint st2))
  /\ run (run st1 (fst (handleApiCall numberImage network endpoint st1)))
         (fst (handleApiCall numberImage network endpoint
                 (run st1 (fst (handleApiCall numberImage network endpoint st1)))))
     = run st1 (fst (handleApiCall numberImage network endpoint st1)).
Proof.
  intros Hsame Hk Hm.
  assert (Hgen : forall st', Spec.sameInputs st1 st' ->
            handleApiCall numberImage network endpoint st1
            = handleApiCall numberImage network endpoint st'
            /\ run st1 (fst (handleApiCall numberImage network endpoint st1))
               = run st' (fst (handleApiCall numberImage network endpoint st'))).
  { intros st' Hs. pose proof (handleApiCall_inputs numberImage network endpoint _ _ Hs) as Heq.
    split; [exact Heq|]. rewrite <- Heq.
    rewrite (submit_valid _ _ _ _ Hk Hm). cbn [fst].
    by apply run_prelude_forgets. }
  destruct (Hgen st2 Hsame) as [Ht Hr]. split; [exact Ht|]. split; [exact Hr|].
  symmetry. apply Hgen. apply run_inputs.
Qed.

Lemma outcome_replaces_previous_witness :
  Spec.sameInputs Samples.ready
    (run Samples.ready
       (fst (handleApiCall Samples.asWritten Samples.unreachable
               Index.extractAsync Samples.ready)))
  /\ Spec.hasApiKey Samples.ready = true
  /\ Spec.anyRequiredMissing Index.extractAsync Samples.ready = false
  /\ run Samples.ready
       (fst (handleApiCall Samples.asWritten Samples.serverOk
               Index.extractAsync Samples.ready))
     = run (run Samples.ready
              (fst (handleApiCall Samples.asWritten Samples.unreachable
                      Index.extractAsync Samples.ready)))
         (fst (handleApiCall Samples.asWritten Samples.serverOk Index.extractAsync
                 (run Samples.ready
                    (fst (handleApiCall Samples.asWritten Samples.unreachable
                            Index.extractAsync Samples.ready))))).
Proof.
  assert (Hs : Spec.sameInputs Samples.ready
                 (run Samples.ready
                    (fst (handleApiCall Samples.asWritten Samples.unreachable
                            Index.extractAsync Samples.ready))))
    by (repeat split; reflexivity).
  split; [exact Hs|]. split; [reflexivity|]. split; [reflexivity|].
  destruct (outcome_replaces_previous Samples.asWritten Samples.serverOk
              Index.extractAsync Samples.ready _ Hs eq_refl eq_refl) as (_ & H & _).
  exact H.
Defined.

Lemma httpSummary_nonempty (r : Response) : Js.truthy (Spec.httpSummary r) = true.
Proof. reflexivity. Qed.

(** X8.  After a request that was sent, the response card is on screen
    whenever the call failed in transport or the status is outside 200 to
    299.  For a status from 200 to 299 it is on screen exactly when the
    rendered body is not empty: a successful response with an empty body
    leaves no response card at all. *)
Theorem response_card_after_submission
  (numberImage : list N -> list N) (network : Network)
  (endpoint : ApiEndpoint.t) (st : PanelState) :
  Spec.hasApiKey st = true ->
  Spec.anyRequiredMissing endpoint st = false ->
  match Spec.exchange network endpoint st with
  | Returned r =>
      match text r with
      | Returned responseText =>
          showResponse (run st (fst (handleApiCall numberImage network endpoint st)))
          = Js.truthy (Spec.bodyText numberImage responseText) || negb (Spec.success r)
          /\ (responseText = [] -> Spec.success r = true ->
              showResponse (run st (fst (handleApiCall numberImage network endpoint st)))
              = false)
      | Threw _ =>
          showResponse (run st (fst (handleApiCall numberImage network endpoint st))) = true
      end
  | Threw _ =>
      showResponse (run st (fst (handleApiCall numberImage network endpoint st))) = true
  end.
Proof.
  intros Hk Hm.
  destruct (Spec.exchange network endpoint st) as [r|e] eqn:Hx.
  - destruct (text r) as [t|e] eqn:Ht.
    + rewrite (run_valid_response _ _ _ _ _ _ Hk Hm Hx Ht). unfold showResponse.
      cbn [response error].
      assert (Hshow : Js.truthy (Spec.bodyText numberImage t)
                      || Js.truthy (if Spec.success r then [] else Spec.httpSummary r)
                      = Js.truthy (Spec.bodyText numberImage t) || negb (Spec.success r)).
      { by destruct (Spec.success r). }
      split; [exact Hshow|]. intros -> Hs. rewrite Hshow, Hs. reflexivity.
    + rewrite (run_valid_failure _ _ _ _ e Hk Hm); [reflexivity|].
      rewrite Hx. simpl. by rewrite Ht.
  - rewrite (run_valid_failure _ _ _ _ e Hk Hm); [reflexivity|]. by rewrite Hx.
Qed.

Lemma response_card_after_submission_witness :
  Spec.hasApiKey Samples.ready = true
  /\ Spec.anyRequiredMissing Index.extractAsync Samples.ready = false
  /\ showResponse
       (run Samples.ready
          (fst (handleApiCall Samples.asWritten Samples.noContent
                  Index.extractAsync Samples.ready))) = false.
Proof.
  split; [reflexivity|]. split; [reflexivity|].
  destruct (response_card_after_submission Samples.asWritten Samples.noContent
              Index.extractAsync Samples.ready eq_refl eq_refl) as [_ H].
  apply H; reflexivity.
Defined.

(** ** The form on mount *)

Lemma initial_fold_other (l : list FormField.t) (m : gmap (list N) (list N)) (key : list N) :
  ~ In key (map FormField.name l) ->
  fold_left (fun acc field => <[FormField.name field := Spec.startValue field]> acc) l m !! key
  = m !! key.
Proof.
  revert m. induction l as [|x l IH]; intros m Hnot; simpl in *; [done|].
  rewrite IH by tauto. apply lookup_insert_ne. tauto.
Qed.

Lemma initial_fold_set (l : list FormField.t) (m : gmap (list N) (list N)) (key : list N) :
  is_Some (m !! key) \/ In key (map FormField.name l) ->
  is_Some (fold_left (fun acc field => <[FormField.name field := Spec.startValue field]> acc)
             l m !! key).
Proof.
  revert m. induction l as [|x l IH]; intros m H; simpl in *; [tauto|].
  apply IH. destruct (decide (FormField.name x = key)) as [->|Hne].
  - left. rewrite lookup_insert_eq. eauto.
  - rewrite lookup_insert_ne by done. tauto.
Qed.

Lemma initialFormData_fold (endpoint : ApiEndpoint.t) :
  initialFormData endpoint
  = fold_left (fun acc field => <[FormField.name field := Spec.startValue field]> acc)
      (Spec.declaredFields endpoint) ∅.
Proof.
  unfold initialFormData, Spec.declaredFields, forEach.
  by destruct (ApiEndpoint.formFields endpoint).
Qed.

Lemma mount_allFieldsSet (endpoint : ApiEndpoint.t) :
  Spec.allFieldsSet endpoint (mount endpoint).
Proof.
  intros field Hin. unfold mount. cbn [formData]. rewrite initialFormData_fold.
  apply initial_fold_set. right. by apply in_map.
Qed.

(** X9.  On mount, when the declared form fields have distinct names,
    every declared field holds its default value, the empty string when
    it declares none or an empty one, and the form holds a value for no
    other name. *)
Theorem mount_gives_defaults (endpoint : ApiEndpoint.t) :
  NoDup (map FormField.name (Spec.declaredFields endpoint)) ->
  (forall field, In field (Spec.declaredFields endpoint) ->
     formData (mount endpoint) !! FormField.name field = Some (Spec.startValue field))
  /\ (forall key, ~ In key (map FormField.name (Spec.declaredFields endpoint)) ->
        formData (mount endpoint) !! key = None).
Proof.
  intros Hnd. unfold mount. cbn [formData]. rewrite initialFormData_fold. split.
  - generalize (∅ : gmap (list N) (list N)).
    induction (Spec.declaredFields endpoint) as [|x l IH]; intros m field Hin; [done|].
    simpl in *. apply NoDup_cons in Hnd as [Hx Hnd]. destruct Hin as [->|Hin].
    + rewrite initial_fold_other by (intros H; apply Hx; by apply list_elem_of_In).
      apply lookup_insert_eq.
    + by apply IH.
  - intros key Hnot. by rewrite initial_fold_other.
Qed.

Lemma mount_gives_defaults_witness :
  NoDup (map FormField.name (Spec.declaredFields Index.extractAsync))
  /\ formData (mount Index.extractAsync) !! Js.str "tags" = Some (Js.str "[]")
  /\ formData (mount Index.extractAsync) !! Js.str "query" = Some [].
Proof.
  assert (Hnd : NoDup (map FormField.name (Spec.declaredFields Index.extractAsync))).
  { apply NoDup_cons. split; [|apply NoDup_singleton].
    intros H. apply list_elem_of_In in H. simpl in H. destruct H as [H|[]]. discriminate H. }
  split; [exact Hnd|].
  destruct (mount_gives_defaults Index.extractAsync Hnd) as [H _].
  split.
  - apply (H {| FormField.name := Js.str "tags"; FormField.required := false;
                FormField.defaultValue := Some (Js.str "[]") |}).
    simpl. tauto.
  - apply (H {| FormField.name := Js.str "query"; FormField.required := true;
                FormField.defaultValue := None |}).
    simpl. tauto.
Defined.

(** ** Sessions *)

(** The two turns together are [handleApiCall]. *)
Lemma turns_make_handleApiCall
  (numberImage : list N -> list N) (network : Network)
  (endpoint : ApiEndpoint.t) (st : PanelState) :
  handleApiCall numberImage network endpoint st
  = (fst (Session.beforeAwait endpoint st)
     ++ match snd (Session.beforeAwait endpoint st) with
        | Some (url, init) => Session.afterAwait numberImage (network url init)
        | None => []
        end,
     Returned tt).
Proof.
  unfold handleApiCall, Session.beforeAwait, Session.afterAwait.
  destruct (negb (Js.truthy (Js.trim (apiKey st)))); [reflexivity|].
  destruct (0 <? length (missingFields endpoint st))%nat; [reflexivity|].
  cbn [fst snd].
  destruct (network _ _) as [r|e]; simpl; [|by destruct e].
  destruct (text r) as [t|e]; simpl; [|by destruct e].
  destruct (JSON.parse t); simpl; destruct (ok r); reflexivity.
Qed.

(** After the first turn a request is pending exactly when validation
    passed, and then the four cells of the outcome are reset; when it did
    not pass, no cell is set. *)
Lemma beforeAwait_cases (endpoint : ApiEndpoint.t) (st : PanelState) :
  (snd (Session.beforeAwait endpoint st) = None
   /\ run st (fst (Session.beforeAwait endpoint st)) = st)
  \/ (exists request,
        snd (Session.beforeAwait endpoint st) = Some request
        /\ run st (fst (Session.beforeAwait endpoint st))
           = {| apiKey := apiKey st; selectedFiles := selectedFiles st;
                formData := formData st; pathParams := pathParams st;
                response := []; responseStatus := None; isLoading := true;
                error := [] |}).
Proof.
  unfold Session.beforeAwait.
  destruct (negb (Js.truthy (Js.trim (apiKey st)))); [by left|].
  destruct (0 <? length (missingFields endpoint st))%nat; [by left|].
  right. eexists. split; reflexivity.
Qed.

Lemma afterAwait_completion
  (numberImage : list N -> list N) (settled : Outcome Response) :
  Session.afterAwait numberImage settled
  = Spec.completion numberImage settled ++ [setIsLoading false].
Proof.
  unfold Session.afterAwait, Spec.completion.
  destruct settled as [r|e]; simpl; [|by destruct e].
  unfold Spec.responseTrace, Spec.bodyText.
  destruct (text r) as [t|e]; simpl; [|by destruct e].
  destruct (JSON.parse t); simpl; destruct (ok r); reflexivity.
Qed.

(** The second turn on a state that waits for it. *)
Lemma afterAwait_viewConsistent
  (numberImage : list N -> list N) (settled : Outcome Response) (st : PanelState) :
  response st = [] -> responseStatus st = None -> error st = [] ->
  Spec.viewConsistent (run st (Session.afterAwait numberImage settled)).
Proof.
  intros Hr Hs He. rewrite afterAwait_completion.
  assert (Hfail : forall e,
            Spec.viewConsistent (run st (Spec.failureTrace e ++ [setIsLoading false]))).
  { intros e. split; [reflexivity|].
    unfold statusView. cbn [Spec.failureTrace app run fold_left apply
                              responseStatus response error].
    rewrite Hs. by right. }
  unfold Spec.completion.
  destruct settled as [r|e]; [|apply Hfail].
  destruct (text r) as [t|e]; [|apply Hfail].
  unfold Spec.responseTrace. rewrite ok_success. unfold Spec.success.
  split; [by destruct ((200 <=? status r) && (status r <? 300))|].
  unfold statusView.
  destruct ((200 <=? status r) && (status r <? 300)) eqn:Hsucc;
    cbn [app run fold_left apply responseStatus response error];
    destruct (N.eqb_spec (status r) 0) as [H0|H0].
  - rewrite H0 in Hsucc. discriminate Hsucc.
  - by rewrite Hsucc, He.
  - discriminate.
  - rewrite Hsucc. split; discriminate.
Qed.

(** [viewConsistent] looks at the four cells of the outcome only. *)
Lemma viewConsistent_cells (st st' : PanelState) :
  response st' = response st -> responseStatus st' = responseStatus st ->
  isLoading st' = isLoading st -> error st' = error st ->
  Spec.viewConsistent st -> Spec.viewConsistent st'.
Proof.
  unfold Spec.viewConsistent, tryItDisabled, statusView.
  by intros -> -> -> ->.
Qed.

Lemma onPanel_outcome (endpoint : ApiEndpoint.t) (e : Session.Event) (st : PanelState) :
  response (Session.onPanel endpoint e st) = response st
  /\ responseStatus (Session.onPanel endpoint e st) = responseStatus st
  /\ isLoading (Session.onPanel endpoint e st) = isLoading st
  /\ error (Session.onPanel endpoint e st) = error st.
Proof. by destruct e. Qed.

Lemma act_coherent
  (numberImage : list N -> list N) (endpoints : list ApiEndpoint.t)
  (page : Session.Page) (e : Session.Event) :
  Session.coherent page -> Session.coherent (Session.act numberImage endpoints page e).
Proof.
  intros H.
  assert (Hplain : forall endpoint,
            Session.coherent
              (Session.withPanel page
                 (Session.onPanel endpoint e (Index.panel (Session.app page)))
                 (Session.pending page))).
  { intros endpoint.
    destruct (onPanel_outcome endpoint e (Index.panel (Session.app page)))
      as (Hr & Hs & Hl & He).
    unfold Session.coherent in *. cbn [Session.withPanel Session.pending Session.app Index.panel].
    destruct (Session.pending page).
    - by rewrite Hr, Hs, Hl, He.
    - by apply (viewConsistent_cells (Index.panel (Session.app page))). }
  unfold Session.act.
  destruct e as [v|name v|name v|files|index| |network|endpointId];
    try (destruct (Index.currentEndpoint endpoints
                     (Index.selectedEndpoint (Session.app page))) as [endpoint|];
         [|exact H]);
    try apply Hplain.
  - (* the button *)
    destruct (tryItDisabled (Index.panel (Session.app page))) eqn:Hdis; [exact H|].
    unfold Session.coherent in *. cbn [Session.withPanel Session.pending Session.app Index.panel].
    destruct (Session.pending page) as [request|].
    + destruct H as [Hl _]. unfold tryItDisabled in Hdis. congruence.
    + destruct (beforeAwait_cases endpoint (Index.panel (Session.app page)))
        as [[-> ->]|(request & -> & ->)]; [exact H|by repeat split].
  - (* the request settles *)
    unfold Session.coherent in *.
    destruct (Session.pending page) as [[url init]|] eqn:Hp.
    + cbn [Session.withPanel Session.pending Session.app Index.panel].
      destruct H as (_ & Hr & Hs & He). by apply afterAwait_viewConsistent.
    + by rewrite Hp.
  - (* the sidebar *)
    exact H.
Qed.

(** X10.  In every run of the page (from its start, any sequence of
    typing, choosing and removing files, clicks on the button, requests
    that settle as any network decides, and selections in the sidebar,
    also while a request is pending) what is shown agrees with what
    happens.  The button is disabled exactly while a request is pending,
    and then no response, status or error is shown.  When none is
    pending, a status badge is green exactly when no error message is
    shown, a status without a badge comes with an error message, and
    without a status the card is empty or holds the error message after
    [Error: ]. *)
Theorem view_consistent_in_every_session
  (numberImage : list N -> list N) (endpoints : list ApiEndpoint.t)
  (app0 : Index.App) (events : list Session.Event) :
  Index.start endpoints = Some app0 ->
  Session.coherent (Session.play numberImage endpoints (Session.atRest app0) events)
  /\ (tryItDisabled
        (Index.panel
           (Session.app (Session.play numberImage endpoints (Session.atRest app0) events)))
      = true
      <-> Session.pending (Session.play numberImage endpoints (Session.atRest app0) events)
          <> None).
Proof.
  intros Hstart.
  assert (H0 : Session.coherent (Session.atRest app0)).
  { unfold Index.start in Hstart.
    destruct (Index.currentEndpoint endpoints (Js.str "classify")); [|discriminate].
    injection Hstart as <-. split; [reflexivity|]. by left. }
  assert (Hall : Session.coherent
                   (Session.play numberImage endpoints (Session.atRest app0) events)).
  { clear Hstart. unfold Session.play. revert H0. generalize (Session.atRest app0).
    induction events as [|e events IH]; intros page H; simpl; [exact H|].
    apply IH. by apply act_coherent. }
  split; [exact Hall|].
  set (page := Session.play numberImage endpoints (Session.atRest app0) events) in *.
  unfold Session.coherent in Hall. unfold tryItDisabled.
  destruct (Session.pending page) as [request|].
  - destruct Hall as [Hl _]. rewrite Hl. split; [discriminate|reflexivity].
  - destruct Hall as [Hl _]. unfold tryItDisabled in Hl. rewrite Hl.
    split; [discriminate|]. intros H. by destruct H.
Qed.

Lemma view_consistent_in_every_session_witness :
  Index.start Index.realEndpoints = Some Samples.startPage
  /\ Session.pending
       (Session.play Samples.asWritten Index.realEndpoints
          (Session.atRest Samples.startPage) (firstn 5 Samples.visit))
     <> None
  /\ tryItDisabled
       (Index.panel
          (Session.app
             (Session.play Samples.asWritten Index.realEndpoints
                (Session.atRest Samples.startPage) (firstn 5 Samples.visit)))) = true
  /\ Session.coherent
       (Session.play Samples.asWritten Index.realEndpoints
          (Session.atRest Samples.startPage) Samples.visit).
Proof.
  destruct (view_consistent_in_every_session Samples.asWritten Index.realEndpoints
              Samples.startPage (firstn 5 Samples.visit) eq_refl) as [_ Hbutton].
  destruct (view_consistent_in_every_session Samples.asWritten Index.realEndpoints
              Samples.startPage Samples.visit eq_refl) as [Hall _].
  assert (Hp : Session.pending
                 (Session.play Samples.asWritten Index.realEndpoints
                    (Session.atRest Samples.startPage) (firstn 5 Samples.visit))
               <> None) by discriminate.
  split; [reflexivity|]. split; [exact Hp|]. split; [|exact Hall].
  apply Hbutton. exact Hp.
Defined.

Lemma onPanel_keeps_values
  (endpoint : ApiEndpoint.t) (e : Session.Event) (st : PanelState) (key : list N) :
  is_Some (formData st !! key) ->
  is_Some (formData (Session.onPanel endpoint e st) !! key).
Proof.
  intros H. destruct e as [v|name v|name v|files|index| |network|endpointId];
    try exact H.
  unfold Session.onPanel, handleFormDataChange. cbn [formData].
  destruct (decide (name = key)) as [->|Hne].
  - rewrite lookup_insert_eq. eauto.
  - by rewrite lookup_insert_ne.
Qed.

Lemma act_keeps_values
  (numberImage : list N -> list N) (endpoints : list ApiEndpoint.t)
  (page : Session.Page) (e : Session.Event) (key : list N) :
  is_Some (formData (Index.panel (Session.app page)) !! key) ->
  is_Some (formData (Index.panel (Session.app (Session.act numberImage endpoints page e)))
           !! key).
Proof.
  intros H. unfold Session.act.
  destruct e as [v|name v|name v|files|index| |network|endpointId];
    try (destruct (Index.currentEndpoint endpoints
                     (Index.selectedEndpoint (Session.app page))) as [endpoint|];
         [|exact H]);
    try (cbn [Session.withPanel Session.app Index.panel]; by apply onPanel_keeps_values).
  - destruct (tryItDisabled (Index.panel (Session.app page))); [exact H|].
    cbn [Session.withPanel Session.app Index.panel].
    destruct (run_inputs (fst (Session.beforeAwait endpoint (Index.panel (Session.app page))))
                (Index.panel (Session.app page))) as (_ & _ & <- & _).
    exact H.
  - destruct (Session.pending page) as [[url init]|]; [|exact H].
    cbn [Session.withPanel Session.app Index.panel].
    destruct (run_inputs (Session.afterAwait numberImage (network url init))
                (Index.panel (Session.app page))) as (_ & _ & <- & _).
    exact H.
  - exact H.
Qed.

(** X11.  A form field that has a value keeps one, whatever happens next
    on the page: typing, files, clicks on the button, requests that
    settle, and selections of other endpoints and back.  So once every
    declared form field of a multipart endpoint has a value, the body
    built for that endpoint holds one entry per declared field, as the
    specification describes it, at every later moment. *)
Theorem field_values_are_never_unset
  (numberImage : list N -> list N) (endpoints : list ApiEndpoint.t)
  (page : Session.Page) (events : list Session.Event) (endpoint : ApiEndpoint.t) :
  (forall key,
     is_Some (formData (Index.panel (Session.app page)) !! key) ->
     is_Some (formData
                (Index.panel (Session.app (Session.play numberImage endpoints page events)))
              !! key))
  /\ (Spec.allFieldsSet endpoint (Index.panel (Session.app page)) ->
      Spec.multipart endpoint = true ->
      buildBody endpoint
        (Index.panel (Session.app (Session.play numberImage endpoints page events)))
      = Some (Spec.bodyAsSpecified endpoint
                (Index.panel
                   (Session.app (Session.play numberImage endpoints page events))))).
Proof.
  assert (Hkeys : forall key,
            is_Some (formData (Index.panel (Session.app page)) !! key) ->
            is_Some (formData
                       (Index.panel
                          (Session.app (Session.play numberImage endpoints page events)))
                     !! key)).
  { intros key. unfold Session.play. revert page.
    induction events as [|e events IH]; intros page H; simpl; [exact H|].
    apply IH. by apply act_keeps_values. }
  split; [exact Hkeys|].
  intros Hset Hm. rewrite (buildBody_multipart _ _ Hm). unfold Spec.bodyAsSpecified.
  rewrite fieldEntries_all_set; [reflexivity|].
  intros field Hin. apply Hkeys. by apply Hset.
Qed.

Lemma field_values_are_never_unset_witness :
  Spec.allFieldsSet Index.extractAsync
    (Index.panel
       (Session.app
          (Session.play Samples.asWritten Index.realEndpoints
             (Session.atRest Samples.startPage) Samples.fillIn)))
  /\ Spec.multipart Index.extractAsync = true
  /\ buildBody Index.extractAsync
       (Index.panel
          (Session.app
             (Session.play Samples.asWritten Index.realEndpoints
                (Session.play Samples.asWritten Index.realEndpoints
                   (Session.atRest Samples.startPage) Samples.fillIn)
                Samples.detour)))
     = Some [(Js.str "files", FileValue Samples.fileA);
             (Js.str "query", StringValue (Js.str "total amount"));
             (Js.str "tags", StringValue (Js.str "[]"))].
Proof.
  assert (Hset : Spec.allFieldsSet Index.extractAsync
                   (Index.panel
                      (Session.app
                         (Session.play Samples.asWritten Index.realEndpoints
                            (Session.atRest Samples.startPage) Samples.fillIn)))).
  { intros field [<-|[<-|[]]]; vm_compute; eauto. }
  split; [exact Hset|]. split; [reflexivity|].
  destruct (field_values_are_never_unset Samples.asWritten Index.realEndpoints
              (Session.play Samples.asWritten Index.realEndpoints
                 (Session.atRest Samples.startPage) Samples.fillIn)
              Samples.detour Index.extractAsync) as [_ H].
  rewrite (H Hset eq_refl). reflexivity.
Defined.

(** ** More on the URL *)

(** A text that starts with a prefix without an opening brace: what
    starts with a brace is first found after the prefix. *)
Lemma splitAtFirst_after_prefix (prefix rest search : list N) :
  ~ In 123 prefix ->
  Js.splitAtFirst (123 :: search) (prefix ++ rest)
  = match Js.splitAtFirst (123 :: search) rest with
    | Some (before, after) => Some (prefix ++ before, after)
    | None => None
    end.
Proof.
  induction prefix as [|c prefix IH]; intros Hnot.
  - cbn [app]. destruct (Js.splitAtFirst (123 :: search) rest) as [[b a]|]; reflexivity.
  - cbn [app]. rewrite splitAtFirst_cons.
    assert (Hc : Js.startsWith (c :: prefix ++ rest) (123 :: search) = false).
    { cbn [Js.startsWith]. unfold Js.code_eqb.
      destruct (N.eqb_spec 123 c) as [<-|_]; [|reflexivity].
      exfalso. apply Hnot. by left. }
    rewrite Hc, IH by (intros H; apply Hnot; by right).
    destruct (Js.splitAtFirst (123 :: search) rest) as [[b a]|]; reflexivity.
Qed.

Lemma host_no_brace : ~ In 123 Spec.host.
Proof.
  vm_compute. intros H.
  repeat (destruct H as [H|H]; [discriminate H|]). exact H.
Qed.

(** One step of the loop of [buildApiUrl] keeps the host in front. *)
Lemma replace_placeholder_keeps_host (rest name value : list N) :
  exists rest',
    Js.replace (Spec.host ++ rest) (Js.str "{" ++ name ++ Js.str "}") value
    = Spec.host ++ rest'.
Proof.
  unfold Js.replace. change (Js.str "{" ++ name ++ Js.str "}") with (123 :: name ++ Js.str "}").
  rewrite splitAtFirst_after_prefix by apply host_no_brace.
  destruct (Js.splitAtFirst (123 :: name ++ Js.str "}") rest) as [[b a]|].
  - eexists. rewrite <- app_assoc. reflexivity.
  - by exists rest.
Qed.

Lemma fold_params_no_value (st : PanelState) (params : list ApiParameter.t) (url : list N) :
  (forall param, In param params ->
     lookupTruthy (pathParams st) (ApiParameter.name param) = false) ->
  fold_left
    (fun url param =>
       if strictEq (ApiParameter.in_ param) (Js.str "path")
          && lookupTruthy (pathParams st) (ApiParameter.name param)
       then Js.replace url
              (Js.str "{" ++ ApiParameter.name param ++ Js.str "}")
              (default [] (pathParams st !! ApiParameter.name param))
       else url)
    params url
  = url.
Proof.
  revert url. induction params as [|param params IH]; intros url H; cbn [fold_left]; [done|].
  rewrite (H param) by (by left). rewrite andb_false_r.
  apply IH. intros p Hp. apply H. by right.
Qed.

(** X12.  Whatever the endpoint and whatever the values of the path
    parameters, the URL starts with the base host: a value can change the
    path, never the host the request goes to.  Without a value for any
    parameter the URL is the host followed by the path as written. *)
Theorem url_keeps_host (endpoint : ApiEndpoint.t) (st : PanelState) :
  (exists rest, buildApiUrl endpoint st = Spec.host ++ rest)
  /\ ((forall param, In param (Spec.declaredParameters endpoint) ->
         lookupTruthy (pathParams st) (ApiParameter.name param) = false) ->
      buildApiUrl endpoint st = Spec.host ++ ApiEndpoint.path endpoint).
Proof.
  split; [|apply buildApiUrl_no_value].
  unfold buildApiUrl, forEach. fold Spec.host.
  destruct (ApiEndpoint.parameters endpoint) as [params|]; [|eauto].
  generalize (ApiEndpoint.path endpoint).
  induction params as [|param params IH]; intros rest; cbn [fold_left]; [eauto|].
  destruct (strictEq _ _ && lookupTruthy _ _); [|apply IH].
  destruct (replace_placeholder_keeps_host rest (ApiParameter.name param)
              (default [] (pathParams st !! ApiParameter.name param))) as [rest' ->].
  apply IH.
Qed.

Lemma url_keeps_host_witness :
  (forall param, In param (Spec.declaredParameters Index.trace) ->
     lookupTruthy (pathParams Samples.ready) (ApiParameter.name param) = false)
  /\ buildApiUrl Index.trace Samples.ready
     = Js.str "https://kong-uat-proxy.hachiai.com/quest/v1/trace_id/{trace_id}".
Proof.
  assert (H : forall param, In param (Spec.declaredParameters Index.trace) ->
                lookupTruthy (pathParams Samples.ready) (ApiParameter.name param) = false).
  { intros param [<-|[]]. reflexivity. }
  split; [exact H|].
  destruct (url_keeps_host Index.trace Samples.ready) as [_ Hurl].
  rewrite (Hurl H). reflexivity.
Defined.

(** X13.  When one parameter of the endpoint is a path parameter with a
    value that is not empty and holds no dollar sign, the other
    parameters have no value, and the placeholder of the parameter occurs
    in the path, then the URL is the host followed by the path with the
    value in the place of the first occurrence of the placeholder. *)
Theorem url_substitutes_plain_value
  (endpoint : ApiEndpoint.t) (st : PanelState)
  (others1 others2 : list ApiParameter.t) (param : ApiParameter.t)
  (value before after : list N) :
  ApiEndpoint.parameters endpoint = Some (others1 ++ param :: others2) ->
  (forall p, In p (others1 ++ others2) ->
     lookupTruthy (pathParams st) (ApiParameter.name p) = false) ->
  ApiParameter.in_ param = Some (Js.str "path") ->
  pathParams st !! ApiParameter.name param = Some value ->
  value <> [] ->
  ~ In 36 value ->
  Js.splitAtFirst (Spec.placeholder (ApiParameter.name param)) (ApiEndpoint.path endpoint)
  = Some (before, after) ->
  ApiEndpoint.path endpoint
  = before ++ Spec.placeholder (ApiParameter.name param) ++ after
  /\ buildApiUrl endpoint st = Spec.host ++ before ++ value ++ after.
Proof.
  intros Hparams Hothers Hin Hval Hne Hplain Hsplit.
  split; [by apply splitAtFirst_sound|].
  unfold buildApiUrl, forEach. fold Spec.host. rewrite Hparams, fold_left_app.
  rewrite (fold_params_no_value st others1)
    by (intros p Hp; apply Hothers, in_app_iff; by left).
  cbn [fold_left].
  rewrite (fold_params_no_value st others2)
    by (intros p Hp; apply Hothers, in_app_iff; by right).
  unfold lookupTruthy. rewrite Hin, Hval.
  replace (strictEq (Some (Js.str "path")) (Js.str "path")) with true by reflexivity.
  destruct value as [|c value]; [done|]. cbn [Js.truthy andb default from_option id].
  erewrite replace_plain; [|  |exact Hplain].
  - by rewrite <- app_assoc.
  - unfold Spec.placeholder in Hsplit.
    change (Js.str "{" ++ ApiParameter.name param ++ Js.str "}")
      with (123 :: ApiParameter.name param ++ Js.str "}") in *.
    rewrite splitAtFirst_after_prefix by apply host_no_brace.
    by rewrite Hsplit.
Qed.

Lemma url_substitutes_plain_value_witness :
  ApiEndpoint.parameters Samples.compare
  = Some ([] ++ {| ApiParameter.name := Js.str "trace_id"; ApiParameter.required := true;
                   ApiParameter.in_ := Some (Js.str "path") |} :: [])
  /\ Js.splitAtFirst (Spec.placeholder (Js.str "trace_id")) (ApiEndpoint.path Samples.compare)
     = Some (Js.str "/v1/trace_id/", Js.str "/diff/{trace_id}")
  /\ buildApiUrl Samples.compare (Samples.tracing (Js.str "abc123"))
     = Spec.host ++ Js.str "/v1/trace_id/" ++ Js.str "abc123" ++ Js.str "/diff/{trace_id}".
Proof.
  split; [reflexivity|]. split; [reflexivity|].
  refine (proj2 (url_substitutes_plain_value Samples.compare (Samples.tracing (Js.str "abc123"))
                   [] []
                   {| ApiParameter.name := Js.str "trace_id"; ApiParameter.required := true;
                      ApiParameter.in_ := Some (Js.str "path") |}
                   (Js.str "abc123") (Js.str "/v1/trace_id/") (Js.str "/diff/{trace_id}")
                   eq_refl _ eq_refl eq_refl _ _ eq_refl)).
  - intros p [].
  - discriminate.
  - vm_compute. intros H.
    repeat (destruct H as [H|H]; [discriminate H|]). exact H.
Defined.

(** ** The cURL command *)

Lemma fold_left_concat {A : Type} (g : A -> list N) (l : list A) (acc : list N) :
  fold_left (fun acc x => acc ++ g x) l acc = acc ++ concat (map g l).
Proof.
  revert acc. induction l as [|x l IH]; intros acc; simpl.
  - by rewrite app_nil_r.
  - by rewrite IH, <- app_assoc.
Qed.

Lemma fold_left_curl_fields (st : PanelState) (l : list FormField.t) (acc : list N) :
  fold_left
    (fun curlCommand field =>
       if Js.truthy (effectiveValue st field) then
         curlCommand ++ Js.str " " ++ [92; 10] ++ Js.dq "  -F '"
         ++ FormField.name field ++ Js.str "=" ++ effectiveValue st field ++ Js.dq "'"
       else curlCommand)
    l acc
  = acc ++ concat (map Spec.curlPart
                     (omap (fun field =>
                              if Js.truthy (effectiveValue st field)
                              then Some (FormField.name field,
                                         StringValue (effectiveValue st field))
                              else None) l)).
Proof.
  revert acc. induction l as [|x l IH]; intros acc; cbn [fold_left omap list_omap].
  - cbn [map concat]. by rewrite app_nil_r.
  - rewrite IH. destruct (Js.truthy (effectiveValue st x)); [|reflexivity].
    cbn [map concat]. unfold Spec.curlPart at 2. cbn [fst snd].
    by rewrite <- !app_assoc.
Qed.

Lemma curl_shape (endpoint : ApiEndpoint.t) (st : PanelState) :
  generateCurlCommand endpoint st
  = Spec.curlHead endpoint (buildApiUrl endpoint st)
    ++ (if Spec.multipart endpoint
        then concat (map Spec.curlPart
                       (Spec.fileEntries endpoint st ++ Spec.previewFieldEntries endpoint st))
        else []).
Proof.
  unfold generateCurlCommand, Spec.multipart. fold (Spec.curlHead endpoint (buildApiUrl endpoint st)).
  destruct (_ && _); [|by rewrite app_nil_r].
  unfold forEach, Spec.previewFieldEntries, Spec.declaredFields, Spec.fileEntries.
  rewrite map_app, concat_app, app_assoc.
  assert (Hfiles :
    match ApiEndpoint.fileUpload endpoint with
    | Some u =>
        if (0 <? length (selectedFiles st))%nat then
          fold_left
            (fun curlCommand file =>
               curlCommand ++ Js.str " " ++ [92; 10] ++ Js.dq "  -F '"
               ++ FileUpload.name u ++ Js.str "=@" ++ file_name file ++ Js.dq "'")
            (selectedFiles st) (Spec.curlHead endpoint (buildApiUrl endpoint st))
        else Spec.curlHead endpoint (buildApiUrl endpoint st)
    | None => Spec.curlHead endpoint (buildApiUrl endpoint st)
    end
    = Spec.curlHead endpoint (buildApiUrl endpoint st)
      ++ concat (map Spec.curlPart
                   match ApiEndpoint.fileUpload endpoint with
                   | Some u =>
                       map (fun file => (FileUpload.name u, FileValue file)) (selectedFiles st)
                   | None => []
                   end)).
  { destruct (ApiEndpoint.fileUpload endpoint) as [u|]; [|by rewrite app_nil_r].
    destruct (selectedFiles st) as [|f files] eqn:Hf; [by rewrite app_nil_r|].
    cbn [length Nat.ltb Nat.leb].
    rewrite (fold_left_concat
               (fun file => Js.str " " ++ [92; 10] ++ Js.dq "  -F '"
                            ++ FileUpload.name u ++ Js.str "=@" ++ file_name file ++ Js.dq "'")).
    f_equal. rewrite List.map_map. reflexivity. }
  rewrite Hfiles.
  destruct (ApiEndpoint.formFields endpoint) as [fields|]; cbn [default from_option id].
  - apply fold_left_curl_fields.
  - cbn [omap list_omap map concat]. by rewrite app_nil_r.
Qed.

(** X14.  The cURL command is the [curl -X] line with the method and
    the built URL, the header line with the placeholder YOUR_API_KEY,
    and, for a non-GET multipart endpoint, one [-F] line per selected
    file and then one per declared form field whose value, or else whose
    default, is not empty.  The API key that was typed is not part of it:
    typing another key leaves the command as it is. *)
Theorem curl_command_shape (endpoint : ApiEndpoint.t) (st : PanelState) :
  generateCurlCommand endpoint st
  = Spec.curlHead endpoint (buildApiUrl endpoint st)
    ++ (if Spec.multipart endpoint
        then concat (map Spec.curlPart
                       (Spec.fileEntries endpoint st ++ Spec.previewFieldEntries endpoint st))
        else [])
  /\ forall key,
       generateCurlCommand endpoint (setApiKey key st) = generateCurlCommand endpoint st.
Proof.
  split; [apply curl_shape|].
  intros key. destruct st. reflexivity.
Qed.

Lemma preview_fields_nonempty (st : PanelState) (l : list FormField.t) :
  (forall field, In field l -> lookupTruthy (formData st) (FormField.name field) = true) ->
  omap (fun field =>
          if Js.truthy (effectiveValue st field)
          then Some (FormField.name field, StringValue (effectiveValue st field))
          else None) l
  = omap (fun field =>
            match formData st !! FormField.name field with
            | Some value => Some (FormField.name field, StringValue value)
            | None => None
            end) l.
Proof.
  induction l as [|x l IH]; intros Hset; [done|].
  cbn [omap list_omap]. rewrite IH by (intros f Hf; apply Hset; by right).
  pose proof (Hset x (or_introl eq_refl)) as Hx.
  unfold effectiveValue. rewrite Hx. unfold lookupTruthy in Hx.
  destruct (formData st !! FormField.name x) as [v|]; [|discriminate].
  cbn [default from_option id]. by rewrite Hx.
Qed.

(** X15.  For a non-GET multipart endpoint, when every declared form
    field has a value that is not empty, the [-F] lines of the cURL
    command are the entries of the body that a submission sends, one line
    per entry and in the same order. *)
Theorem curl_command_matches_body (endpoint : ApiEndpoint.t) (st : PanelState) :
  Spec.multipart endpoint = true ->
  (forall field, In field (Spec.declaredFields endpoint) ->
     lookupTruthy (formData st) (FormField.name field) = true) ->
  exists body,
    buildBody endpoint st = Some body
    /\ generateCurlCommand endpoint st
       = Spec.curlHead endpoint (buildApiUrl endpoint st)
         ++ concat (map Spec.curlPart body).
Proof.
  intros Hm Hset. eexists. split; [by apply buildBody_multipart|].
  rewrite curl_shape, Hm.
  unfold Spec.previewFieldEntries, Spec.fieldEntries.
  by rewrite (preview_fields_nonempty st _ Hset).
Qed.

Lemma curl_command_matches_body_witness :
  Spec.multipart Index.extractAsync = true
  /\ (forall field, In field (Spec.declaredFields Index.extractAsync) ->
       lookupTruthy
         (formData (handleFormDataChange (Js.str "tags") (Js.str "[1]") Samples.ready))
         (FormField.name field) = true)
  /\ generateCurlCommand Index.extractAsync
       (handleFormDataChange (Js.str "tags") (Js.str "[1]") Samples.ready)
     = Js.str "curl -X POST "
       ++ Js.dq "'https://kong-uat-proxy.hachiai.com/quest/v1/extract/async' "
       ++ [92; 10] ++ Js.dq "  -H 'apiKey: YOUR_API_KEY' "
       ++ [92; 10] ++ Js.dq "  -F 'files=@a.pdf' "
       ++ [92; 10] ++ Js.dq "  -F 'query=total amount' "
       ++ [92; 10] ++ Js.dq "  -F 'tags=[1]'".
Proof.
  assert (Hset : forall field, In field (Spec.declaredFields Index.extractAsync) ->
            lookupTruthy
              (formData (handleFormDataChange (Js.str "tags") (Js.str "[1]") Samples.ready))
              (FormField.name field) = true).
  { intros field [<-|[<-|[]]]; reflexivity. }
  split; [reflexivity|]. split; [exact Hset|].
  destruct (curl_command_matches_body Index.extractAsync
              (handleFormDataChange (Js.str "tags") (Js.str "[1]") Samples.ready)
              eq_refl Hset)
    as (body & Hbody & Hcurl).
  rewrite Hcurl. injection Hbody as <-. reflexivity.
Defined.

(** ** Validation and the markup *)

Lemma blank_input_shows_blank (m : gmap (list N) (list N)) (name : list N) :
  blank m name = true -> Js.trim (inputValue m name) = [].
Proof.
  unfold blank, inputValue, lookupTruthy.
  destruct (m !! name) as [v|]; [|done]. cbn [default from_option id].
  intros H. destruct (Js.truthy v); [|done].
  destruct (Js.trim v); [done|discriminate].
Qed.

(** X16.  Validation only asks for what is on screen: every name in
    [missingFields] is the label [file(s)] of an upload card that is
    rendered, or the name of a required form field whose input is
    rendered and shows a blank value, or the name of a required path
    parameter whose input is rendered and shows a blank value. *)
Theorem validation_asks_for_rendered_inputs
  (endpoint : ApiEndpoint.t) (st : PanelState) (name : list N) :
  In name (missingFields endpoint st) ->
  (name = Js.str "file(s)" /\ showFileUpload endpoint = true /\ selectedFiles st = [])
  \/ (showFormFields endpoint = true
      /\ exists field, In field (formFieldInputs endpoint)
                       /\ FormField.name field = name
                       /\ FormField.required field = true
                       /\ Js.trim (inputValue (formData st) name) = [])
  \/ (showPathParameters endpoint = true
      /\ exists param, In param (pathParameterInputs endpoint)
                       /\ ApiParameter.name param = name
                       /\ ApiParameter.required param = true
                       /\ Js.trim (inputValue (pathParams st) name) = []).
Proof.
  rewrite missingFields_spec. unfold Spec.requiredMissing.
  rewrite !in_app_iff. intros [Hfile|[Hfield|Hparam]].
  - left. unfold Spec.fileMissing, Spec.fileRequired, showFileUpload in *.
    destruct (ApiEndpoint.fileUpload endpoint) as [u|]; [|done].
    destruct (FileUpload.required u); [|done]. cbn [andb] in Hfile.
    destruct (selectedFiles st); [|done].
    destruct Hfile as [<-|[]]. done.
  - right. left. apply in_map_iff in Hfield as (field & <- & Hin).
    apply filter_In in Hin as [Hin Hmiss].
    unfold Spec.fieldMissing in Hmiss. apply andb_true_iff in Hmiss as [Hreq Hblank].
    unfold Spec.declaredFields, showFormFields, formFieldInputs in *.
    destruct (ApiEndpoint.formFields endpoint) as [fields|]; [|done].
    cbn [default from_option id] in Hin. split.
    + destruct fields; [done|reflexivity].
    + exists field. repeat split; try done. by apply blank_input_shows_blank.
  - right. right. apply in_map_iff in Hparam as (param & <- & Hin).
    apply filter_In in Hin as [Hin Hmiss].
    unfold Spec.pathParamMissing in Hmiss.
    apply andb_true_iff in Hmiss as [Hmiss Hblank].
    apply andb_true_iff in Hmiss as [Hreq Hpath].
    unfold Spec.declaredParameters, showPathParameters, pathParameterInputs in *.
    destruct (ApiEndpoint.parameters endpoint) as [params|]; [|done].
    cbn [default from_option id] in Hin. split.
    + apply existsb_exists. by exists param.
    + exists param. split; [apply filter_In; by split|].
      repeat split; try done. by apply blank_input_shows_blank.
Qed.

Lemma validation_asks_for_rendered_inputs_witness :
  In (Js.str "trace_id") (missingFields Index.trace Samples.keyOnly)
  /\ showPathParameters Index.trace = true
  /\ Js.trim (inputValue (pathParams Samples.keyOnly) (Js.str "trace_id")) = [].
Proof.
  assert (Hin : In (Js.str "trace_id") (missingFields Index.trace Samples.keyOnly))
    by (left; reflexivity).
  split; [exact Hin|].
  destruct (validation_asks_for_rendered_inputs Index.trace Samples.keyOnly
              (Js.str "trace_id") Hin)
    as [(H & _)|[(H & _)|(Hshow & param & _ & _ & _ & Hblank)]].
  - discriminate H.
  - discriminate H.
  - split; [exact Hshow|exact Hblank].
Defined.

(** ** The catalog and the sidebar *)

Lemma find_none_ids (endpoints : list ApiEndpoint.t) (selected : list N) :
  (forall e, In e endpoints -> ApiEndpoint.id e <> selected) ->
  find (fun ep => Js.eqb (ApiEndpoint.id ep) selected) endpoints = None.
Proof.
  induction endpoints as [|e l IH]; intros H; simpl; [done|].
  replace (Js.eqb (ApiEndpoint.id e) selected) with false.
  - apply IH. intros e' He'. apply H. by right.
  - symmetry. apply Js_eqb_neq. apply H. by left.
Qed.

Lemma find_first_id (before after : list ApiEndpoint.t) (ep : ApiEndpoint.t) :
  (forall e, In e before -> ApiEndpoint.id e <> ApiEndpoint.id ep) ->
  find (fun e => Js.eqb (ApiEndpoint.id e) (ApiEndpoint.id ep)) (before ++ ep :: after)
  = Some ep.
Proof.
  induction before as [|e l IH]; intros H; simpl.
  - by rewrite Js_eqb_refl.
  - replace (Js.eqb (ApiEndpoint.id e) (ApiEndpoint.id ep)) with false.
    + apply IH. intros e' He'. apply H. by right.
    + symmetry. apply Js_eqb_neq. apply H. by left.
Qed.

(** X17.  The endpoint the panel is given: for an id that no endpoint of
    the catalog has, the first endpoint of the catalog, while no entry of
    the sidebar is highlighted; for the id of an endpoint, the first
    endpoint of the catalog with that id; and nothing only when the
    catalog is empty. *)
Theorem current_endpoint_falls_back_to_first
  (endpoints : list ApiEndpoint.t) (selected : list N) :
  ((forall e, In e endpoints -> ApiEndpoint.id e <> selected) ->
   Index.currentEndpoint endpoints selected = head endpoints
   /\ forall e, In e endpoints -> ApiSidebar.highlighted selected e = false)
  /\ (forall before ep after,
        endpoints = before ++ ep :: after ->
        ApiEndpoint.id ep = selected ->
        (forall e, In e before -> ApiEndpoint.id e <> selected) ->
        Index.currentEndpoint endpoints selected = Some ep)
  /\ (Index.currentEndpoint endpoints selected = None <-> endpoints = []).
Proof.
  unfold Index.currentEndpoint. split; [|split].
  - intros H. rewrite (find_none_ids _ _ H). split; [reflexivity|].
    intros e He. unfold ApiSidebar.highlighted. apply Js_eqb_neq.
    intros Heq. by apply (H e He).
  - intros before ep after -> <- H. by rewrite find_first_id.
  - destruct (find _ endpoints) eqn:Hf; [split; [discriminate|]|].
    + intros ->. discriminate Hf.
    + destruct endpoints; simpl; split; done.
Qed.

Lemma current_endpoint_falls_back_to_first_witness :
  (forall e, In e Index.realEndpoints -> ApiEndpoint.id e <> Js.str "split")
  /\ Index.currentEndpoint Index.realEndpoints (Js.str "split") = Some Index.classify.
Proof.
  assert (H : forall e, In e Index.realEndpoints -> ApiEndpoint.id e <> Js.str "split").
  { intros e [<-|[<-|[<-|[<-|[]]]]]; discriminate. }
  split; [exact H|].
  destruct (current_endpoint_falls_back_to_first Index.realEndpoints (Js.str "split"))
    as [Hnone _].
  destruct (Hnone H) as [Hcur _]. exact Hcur.
Defined.

(** X18.  In a catalog whose ids are distinct, a click on the entry of
    an endpoint gives the panel that endpoint, highlights that entry and
    no other, and leaves the state of the panel as it was. *)
Theorem sidebar_click_selects_the_entry
  (endpoints : list ApiEndpoint.t) (ep : ApiEndpoint.t) (app : Index.App) :
  NoDup (map ApiEndpoint.id endpoints) ->
  In ep endpoints ->
  Index.currentEndpoint endpoints (Index.selectedEndpoint (ApiSidebar.click ep app))
  = Some ep
  /\ (forall e, In e endpoints ->
        (ApiSidebar.highlighted (Index.selectedEndpoint (ApiSidebar.click ep app)) e = true
         <-> e = ep))
  /\ Index.panel (ApiSidebar.click ep app) = Index.panel app.
Proof.
  intros Hnd Hin. cbn [ApiSidebar.click Index.setSelectedEndpoint Index.selectedEndpoint
                        Index.panel].
  assert (Huniq : forall e, In e endpoints -> ApiEndpoint.id e = ApiEndpoint.id ep -> e = ep).
  { clear app. induction endpoints as [|x l IH]; [done|].
    simpl in Hnd. apply NoDup_cons in Hnd as [Hx Hnd].
    intros e He Hid. destruct Hin as [->|Hin], He as [->|He]; try done.
    - exfalso. apply Hx. rewrite <- Hid. apply list_elem_of_In. by apply in_map.
    - exfalso. apply Hx. rewrite Hid. apply list_elem_of_In. by apply in_map.
    - by apply IH. }
  split; [|split; [|reflexivity]].
  - apply in_split in Hin as (before & after & ->).
    unfold Index.currentEndpoint. rewrite find_first_id; [done|].
    intros e He Hid.
    assert (Heq : e = ep) by (apply Huniq; [apply in_app_iff; by left|done]).
    subst e. rewrite map_app in Hnd. apply NoDup_app in Hnd as (_ & Hdisj & _).
    apply (Hdisj (ApiEndpoint.id ep)).
    + apply list_elem_of_In. by apply in_map.
    + apply list_elem_of_In. simpl. by left.
  - intros e He. unfold ApiSidebar.highlighted. rewrite Js_eqb_eq. split.
    + intros Hid. by apply Huniq.
    + by intros ->.
Qed.

Lemma sidebar_click_selects_the_entry_witness :
  NoDup (map ApiEndpoint.id Index.realEndpoints)
  /\ In Index.trace Index.realEndpoints
  /\ Index.currentEndpoint Index.realEndpoints
       (Index.selectedEndpoint (ApiSidebar.click Index.trace Samples.afterClassify))
     = Some Index.trace.
Proof.
  assert (Hnd : NoDup (map ApiEndpoint.id Index.realEndpoints)).
  { repeat (apply NoDup_cons; split;
            [intros H; apply list_elem_of_In in H; simpl in H;
             repeat (destruct H as [H|H]; [discriminate H|]); exact H|]).
    apply NoDup_nil_2. }
  assert (Hin : In Index.trace Index.realEndpoints) by (simpl; tauto).
  split; [exact Hnd|]. split; [exact Hin|].
  destruct (sidebar_click_selects_the_entry Index.realEndpoints Index.trace
              Samples.afterClassify Hnd Hin) as [H _].
  exact H.
Defined.

(** ** Typing and validation *)

Lemma blank_insert (m : gmap (list N) (list N)) (name value key : list N) :
  blank (<[name := value]> m) key
  = if Js.eqb key name then negb (Js.truthy (Js.trim value)) else blank m key.
Proof.
  unfold blank. destruct (Js.eqb key name) eqn:E.
  - apply Js_eqb_eq in E as ->. by rewrite lookup_insert_eq.
  - apply Js_eqb_neq in E. by rewrite lookup_insert_ne.
Qed.

Lemma fieldMissing_after_typing (st : PanelState) (name value : list N) (f : FormField.t) :
  Js.truthy (Js.trim value) = true ->
  Spec.fieldMissing (handleFormDataChange name value st) f
  = Spec.fieldMissing st f && negb (Js.eqb (FormField.name f) name).
Proof.
  intros Hv. unfold Spec.fieldMissing, handleFormDataChange. cbn [formData].
  rewrite blank_insert, Hv.
  destruct (Js.eqb (FormField.name f) name); simpl; by rewrite ?andb_false_r, ?andb_true_r.
Qed.

Lemma pathParamMissing_after_typing (st : PanelState) (name value : list N)
  (p : ApiParameter.t) :
  Js.truthy (Js.trim value) = true ->
  Spec.pathParamMissing (handlePathParamChange name value st) p
  = Spec.pathParamMissing st p && negb (Js.eqb (ApiParameter.name p) name).
Proof.
  intros Hv. unfold Spec.pathParamMissing, handlePathParamChange. cbn [pathParams].
  rewrite blank_insert, Hv.
  destruct (Js.eqb (ApiParameter.name p) name); simpl; by rewrite ?andb_false_r, ?andb_true_r.
Qed.

Lemma existsb_false_forall {A : Type} (p : A -> bool) (l : list A) :
  (forall x, In x l -> p x = false) -> existsb p l = false.
Proof.
  induction l as [|x l IH]; intros H; simpl; [done|].
  rewrite (H x) by (by left). apply IH. intros y Hy. apply H. by right.
Qed.

(** X19.  Typing a value that is not blank into a form field takes the
    required fields of that name out of the list of missing inputs and
    changes nothing else in it: the files, the other fields and the path
    parameters are reported as before.  If those fields were all that was
    missing, nothing is missing any more. *)
Theorem typing_a_field_clears_it
  (endpoint : ApiEndpoint.t) (st : PanelState) (name value : list N) :
  Js.truthy (Js.trim value) = true ->
  missingFields endpoint (handleFormDataChange name value st)
  = (if Spec.fileMissing endpoint st then [Js.str "file(s)"] else [])
    ++ map FormField.name
         (List.filter
            (fun f => Spec.fieldMissing st f && negb (Js.eqb (FormField.name f) name))
            (Spec.declaredFields endpoint))
    ++ map ApiParameter.name
         (List.filter (Spec.pathParamMissing st) (Spec.declaredParameters endpoint))
  /\ (Spec.fileMissing endpoint st = false ->
      (forall f, In f (Spec.declaredFields endpoint) ->
         Spec.fieldMissing st f = true -> FormField.name f = name) ->
      (forall p, In p (Spec.declaredParameters endpoint) ->
         Spec.pathParamMissing st p = false) ->
      missingFields endpoint (handleFormDataChange name value st) = []).
Proof.
  intros Hv.
  assert (Heq : missingFields endpoint (handleFormDataChange name value st)
    = (if Spec.fileMissing endpoint st then [Js.str "file(s)"] else [])
      ++ map FormField.name
           (List.filter
              (fun f => Spec.fieldMissing st f && negb (Js.eqb (FormField.name f) name))
              (Spec.declaredFields endpoint))
      ++ map ApiParameter.name
           (List.filter (Spec.pathParamMissing st) (Spec.declaredParameters endpoint))).
  { rewrite missingFields_spec. unfold Spec.requiredMissing. f_equal. f_equal.
    f_equal. apply List.filter_ext. intros f. by apply fieldMissing_after_typing. }
  split; [exact Heq|].
  intros Hfile Hfields Hparams. rewrite Heq, Hfile. cbn [app].
  rewrite (filter_none _ FormField.name), (filter_none _ ApiParameter.name); [done| |].
  - by apply existsb_false_forall.
  - apply existsb_false_forall. intros f Hf.
    destruct (Spec.fieldMissing st f) eqn:Hmiss; [|done].
    rewrite (Hfields f Hf Hmiss), Js_eqb_refl. reflexivity.
Qed.

Lemma typing_a_field_clears_it_witness :
  Js.truthy (Js.trim (Js.str "total amount")) = true
  /\ missingFields Index.extractAsync Samples.keyOnly = [Js.str "file(s)"; Js.str "query"]
  /\ missingFields Index.extractAsync
       (handleFormDataChange (Js.str "query") (Js.str "total amount") Samples.keyOnly)
     = [Js.str "file(s)"].
Proof.
  split; [reflexivity|]. split; [reflexivity|].
  destruct (typing_a_field_clears_it Index.extractAsync Samples.keyOnly
              (Js.str "query") (Js.str "total amount") eq_refl) as [H _].
  rewrite H. reflexivity.
Defined.

(** X20.  Typing a value that is not blank into the input of a path
    parameter takes the required path parameters of that name out of the
    list of missing inputs and changes nothing else in it. *)
Theorem typing_a_path_parameter_clears_it
  (endpoint : ApiEndpoint.t) (st : PanelState) (name value : list N) :
  Js.truthy (Js.trim value) = true ->
  missingFields endpoint (handlePathParamChange name value st)
  = (if Spec.fileMissing endpoint st then [Js.str "file(s)"] else [])
    ++ map FormField.name
         (List.filter (Spec.fieldMissing st) (Spec.declaredFields endpoint))
    ++ map ApiParameter.name
         (List.filter
            (fun p => Spec.pathParamMissing st p && negb (Js.eqb (ApiParameter.name p) name))
            (Spec.declaredParameters endpoint)).
Proof.
  intros Hv. rewrite missingFields_spec. unfold Spec.requiredMissing. f_equal. f_equal.
  f_equal. apply List.filter_ext. intros p. by apply pathParamMissing_after_typing.
Qed.

Lemma typing_a_path_parameter_clears_it_witness :
  Js.truthy (Js.trim (Js.str "abc123")) = true
  /\ missingFields Index.trace Samples.keyOnly = [Js.str "trace_id"]
  /\ missingFields Index.trace
       (handlePathParamChange (Js.str "trace_id") (Js.str "abc123") Samples.keyOnly) = [].
Proof.
  split; [reflexivity|]. split; [reflexivity|].
  rewrite (typing_a_path_parameter_clears_it Index.trace Samples.keyOnly
             (Js.str "trace_id") (Js.str "abc123") eq_refl).
  reflexivity.
Defined.
